(** * The BlackRoad message broker ([src/message_queue.py]) over a relational store

    The broker keeps all of its state in four SQLite tables and every method
    of [MessageBroker] is a short transaction over them.  The development
    models the database as four lists of rows kept in insertion (rowid)
    order, each method as a function from the database to the new database
    and the method's outcome, and then settles the properties the
    specification states about the broker. *)

From Stdlib Require Import String Ascii List ZArith Bool Arith Lia DecimalString.
From Stdlib Require Import OrderedTypeEx.
Import ListNotations.

Local Open Scope string_scope.
Local Open Scope list_scope.

(** ** Python values *)

(** A reading of [datetime.now()].  The tables hold its ISO text and the
    dataclasses parse it back with [datetime.fromisoformat]; the round trip
    is the identity on readings, so the text is not modelled. *)
Definition datetime : Type := Z.

(** [datetime.now()] is read several times inside one method call (once per
    row in [consume], twice in [declare_queue]); [now k] is the k-th
    reading of the call. *)
Definition Clock : Type := nat -> datetime.

(** The exceptions the methods raise: sqlite3's IntegrityError for a plain
    [INSERT] that hits a PRIMARY KEY already present, its OverflowError for
    an integer parameter that does not fit 64 bits, and whatever [eval]
    raises on a stored text that is not an expression. *)
Inductive exn : Type :=
| IntegrityError
| OverflowError
| EvalRaised.

Inductive outcome (A : Type) : Type :=
| Returned (a : A)
| Raised (e : exn).
Arguments Returned {A} a.
Arguments Raised {A} e.

Definition returned {A : Type} (o : outcome A) : option A :=
  match o with Returned a => Some a | Raised _ => None end.

(** The double quote character, and the text the f-string of
    [dead_letter_queue] builds. *)
Definition dquote : string := String (ascii_of_nat 34) EmptyString.

Definition dead_letter_arguments (dlq_name : string) : string :=
  "{" ++ dquote ++ "x-dead-letter-queue" ++ dquote ++ ": "
      ++ dquote ++ dlq_name ++ dquote ++ "}".

(** The integers sqlite3 accepts as a parameter. *)
Definition fits_int64 (n : Z) : bool :=
  ((- 2 ^ 63 <=? n) && (n <? 2 ^ 63))%Z.

(** The first exception of a sequence of evaluations, or all their
    values. *)
Fixpoint collect {A : Type} (l : list (outcome A)) : outcome (list A) :=
  match l with
  | [] => Returned []
  | Raised e :: _ => Raised e
  | Returned a :: l' =>
      match collect l' with
      | Returned t => Returned (a :: t)
      | Raised e => Raised e
      end
  end.

(** ** The dataclasses *)

Module Exchange.
Record t : Type := mk {
    id : string;
    name : string;
    type : string;
    vhost : string;
    durable : bool;
    auto_delete : bool
  }.
End Exchange.

Module Queue.
Record t (D : Type) : Type := mk {
    id : string;
    name : string;
    vhost : string;
    durable : bool;
    exclusive : bool;
    auto_delete : bool;
    arguments : D;
    message_count : Z;
    consumer_count : Z;
    created_at : datetime;
    last_message_at : option datetime
  }.
Arguments mk {D}.
Arguments id {D}.
Arguments name {D}.
Arguments vhost {D}.
Arguments durable {D}.
Arguments exclusive {D}.
Arguments auto_delete {D}.
Arguments arguments {D}.
Arguments message_count {D}.
Arguments consumer_count {D}.
Arguments created_at {D}.
Arguments last_message_at {D}.
End Queue.

Module Message.
Record t (D : Type) : Type := mk {
    id : string;
    queue_id : string;
    exchange : string;
    routing_key : string;
    body : list Byte.byte;
    headers : D;
    priority : Z;
    delivery_mode : Z;
    content_type : string;
    published_at : datetime;
    acked_at : option datetime;
    nacked_at : option datetime;
    attempts : Z
  }.
Arguments mk {D}.
Arguments id {D}.
Arguments queue_id {D}.
Arguments exchange {D}.
Arguments routing_key {D}.
Arguments body {D}.
Arguments headers {D}.
Arguments priority {D}.
Arguments delivery_mode {D}.
Arguments content_type {D}.
Arguments published_at {D}.
Arguments acked_at {D}.
Arguments nacked_at {D}.
Arguments attempts {D}.
End Message.

(** ** The tables of [_init_db]

    Columns without NOT NULL that the code leaves or tests as NULL are
    options.  INTEGER columns are [Z]: the model follows SQLite as long as a
    counter does not pass 2^63, where SQLite switches to a REAL. *)

Record exchange_row : Type := mk_exchange_row {
  ex_id : string;
  ex_name : string;
  ex_type : string;
  ex_vhost : string;
  ex_durable : bool;
  ex_auto_delete : bool
}.

Record queue_row : Type := mk_queue_row {
  q_id : string;
  q_name : string;
  q_vhost : string;
  q_durable : bool;
  q_exclusive : bool;
  q_auto_delete : bool;
  q_arguments : option string;
  q_message_count : Z;
  q_consumer_count : Z;
  q_created_at : datetime;
  q_last_message_at : option datetime
}.

Record binding_row : Type := mk_binding_row {
  b_queue_id : string;
  b_exchange_id : string;
  b_routing_key : string;
  b_vhost : string
}.

Record message_row : Type := mk_message_row {
  m_id : string;
  m_queue_id : string;
  m_exchange : string;
  m_routing_key : string;
  m_body : list Byte.byte;
  m_headers : option string;
  m_priority : Z;
  m_delivery_mode : Z;
  m_content_type : string;
  m_published_at : datetime;
  m_acked_at : option datetime;
  m_nacked_at : option datetime;
  m_attempts : Z
}.

Record DB : Type := mk_DB {
  exchanges : list exchange_row;
  queues : list queue_row;
  bindings : list binding_row;
  messages : list message_row
}.

(** The database right after [_init_db] on a new file. *)
Definition empty_db : DB := mk_DB [] [] [] [].

(** [_init_db]: every table is created IF NOT EXISTS, so a broker opened on
    a file that already holds the tables starts from what the file holds. *)
Definition init_db (file : option DB) : DB :=
  match file with Some db => db | None => empty_db end.

Definition with_exchanges (db : DB) (t : list exchange_row) : DB :=
  mk_DB t (queues db) (bindings db) (messages db).
Definition with_queues (db : DB) (t : list queue_row) : DB :=
  mk_DB (exchanges db) t (bindings db) (messages db).
Definition with_bindings (db : DB) (t : list binding_row) : DB :=
  mk_DB (exchanges db) (queues db) t (messages db).
Definition with_messages (db : DB) (t : list message_row) : DB :=
  mk_DB (exchanges db) (queues db) (bindings db) t.

(** ** SQL statements over a table *)

(** [is_none] is the test [col IS NULL]. *)
Definition is_none {A : Type} (o : option A) : bool :=
  match o with None => true | Some _ => false end.

(** [UPDATE t SET ... WHERE p]: rows keep their place. *)
Definition update_where {R : Type} (p : R -> bool) (f : R -> R) (t : list R) : list R :=
  map (fun r => if p r then f r else r) t.

(** [DELETE FROM t WHERE p]. *)
Definition delete_where {R : Type} (p : R -> bool) (t : list R) : list R :=
  filter (fun r => negb (p r)) t.

(** [cursor.rowcount] after that DELETE. *)
Definition rowcount {R : Type} (p : R -> bool) (t : list R) : Z :=
  Z.of_nat (length (filter p t)).

(** [LIMIT n]: a negative limit is no limit in SQLite. *)
Definition sql_limit {R : Type} (n : Z) (rows : list R) : list R :=
  if (n <? 0)%Z then rows else firstn (Z.to_nat n) rows.

(** [SELECT id FROM queues WHERE name = ? AND vhost = ?] then [fetchone]. *)
Definition select_queue (db : DB) (name vhost : string) : option queue_row :=
  find (fun q => (q_name q =? name) && (q_vhost q =? vhost)) (queues db).

(** The first of some queue rows in the order of the index that
    UNIQUE(name, vhost) creates, for rows of one name: the smallest vhost,
    bytes compared, and the earlier row between two of the same vhost. *)
Fixpoint first_by_vhost (rows : list queue_row) : option queue_row :=
  match rows with
  | [] => None
  | q :: rest =>
      match first_by_vhost rest with
      | None => Some q
      | Some b => if String.ltb (q_vhost b) (q_vhost q) then Some b else Some q
      end
  end.

(** [SELECT id FROM queues WHERE name = ?] then [fetchone]: the vhost is not
    part of the condition, and SQLite answers through the index on
    (name, vhost), so the row fetched is the one of the smallest vhost. *)
Definition select_queue_by_name (db : DB) (name : string) : option queue_row :=
  first_by_vhost (filter (fun q => q_name q =? name) (queues db)).

(** [SELECT id FROM exchanges WHERE name = ? AND vhost = ?] then [fetchone]. *)
Definition select_exchange (db : DB) (name vhost : string) : option exchange_row :=
  find (fun e => (ex_name e =? name) && (ex_vhost e =? vhost)) (exchanges db).

Definition set_acked_at (t : datetime) (m : message_row) : message_row :=
  mk_message_row (m_id m) (m_queue_id m) (m_exchange m) (m_routing_key m)
    (m_body m) (m_headers m) (m_priority m) (m_delivery_mode m)
    (m_content_type m) (m_published_at m) (Some t) (m_nacked_at m)
    (m_attempts m).

(** [SET nacked_at = ?, attempts = attempts + 1].  On a 64-bit counter the
    sum is what SQLite stores, also at 2^63 - 1 where it stores the REAL
    2^63; from there on SQLite's sum stays where it is, and what is stated
    about more than one nack carries the bound. *)
Definition set_nacked (t : datetime) (m : message_row) : message_row :=
  mk_message_row (m_id m) (m_queue_id m) (m_exchange m) (m_routing_key m)
    (m_body m) (m_headers m) (m_priority m) (m_delivery_mode m)
    (m_content_type m) (m_published_at m) (m_acked_at m) (Some t)
    (m_attempts m + 1)%Z.

Definition set_arguments (a : string) (q : queue_row) : queue_row :=
  mk_queue_row (q_id q) (q_name q) (q_vhost q) (q_durable q) (q_exclusive q)
    (q_auto_delete q) (Some a) (q_message_count q) (q_consumer_count q)
    (q_created_at q) (q_last_message_at q).

(** A message row that [consume] may select: neither acked nor nacked. *)
Definition is_ready (m : message_row) : bool :=
  is_none (m_acked_at m) && is_none (m_nacked_at m).

Definition in_queue (queue_id : string) (m : message_row) : bool :=
  m_queue_id m =? queue_id.

(** ** The methods of [MessageBroker] *)

(** Python dictionaries ([Dict[str, Any]], [Dict[str, str]]) and the two
    built-ins the broker applies to them are not code of the repository:
    [py_str] is [str] on a dictionary, [py_eval] is [eval] on a stored text
    (None when it raises; what it yields is taken as it comes, and the text
    is taken to have no effect besides), [empty_dict] is the literal [{}]. *)
Class PyBuiltins : Type := {
  PyDict : Type;
  empty_dict : PyDict;
  py_str : PyDict -> string;
  py_eval : string -> option PyDict
}.

Section Broker.

Context {py : PyBuiltins}.

(** [d or {}] for an optional dictionary: [None] and the empty dictionary
    are both falsy, and the empty dictionary is replaced by an equal one. *)
Definition or_empty (d : option PyDict) : PyDict :=
  match d with Some d' => d' | None => empty_dict end.

(** [eval(text) if text else {}]: NULL and the empty text are falsy. *)
Definition eval_or_empty (text : option string) : outcome PyDict :=
  match text with
  | Some (String c s) =>
      match py_eval (String c s) with
      | Some d => Returned d
      | None => Raised EvalRaised
      end
  | Some EmptyString => Returned empty_dict
  | None => Returned empty_dict
  end.

(** The [Message(...)] built from a fetched row in [consume] and
    [get_pending_dlq]. *)
Definition Message_of_row (r : message_row) : outcome (Message.t PyDict) :=
  match eval_or_empty (m_headers r) with
  | Returned headers =>
      Returned
        (Message.mk (m_id r) (m_queue_id r) (m_exchange r) (m_routing_key r)
           (m_body r) headers (m_priority r) (m_delivery_mode r)
           (m_content_type r) (m_published_at r) (m_acked_at r)
           (m_nacked_at r) (m_attempts r))
  | Raised e => Raised e
  end.

(** [declare_queue]: [uuid4] is the value [str(uuid.uuid4())] takes if the
    method reaches that line. *)
Definition declare_queue (db : DB) (uuid4 : string) (now : Clock)
    (name vhost : string) (durable exclusive auto_delete : bool)
    (arguments : option PyDict) : DB * outcome (Queue.t PyDict) :=
  let arguments := or_empty arguments in
  match select_queue db name vhost with
  | Some r =>
      (db, Returned (Queue.mk (q_id r) name vhost durable exclusive
                       auto_delete arguments 0%Z 0%Z (now 0) None))
  | None =>
      if existsb (fun q => q_id q =? uuid4) (queues db)
      then (db, Raised IntegrityError)
      else
        (with_queues db
           (queues db ++
            [mk_queue_row uuid4 name vhost durable exclusive auto_delete
               (Some (py_str arguments)) 0%Z 0%Z (now 0) None]),
         Returned (Queue.mk uuid4 name vhost durable exclusive auto_delete
                     arguments 0%Z 0%Z (now 1) None))
  end.

(** [declare_exchange]: INSERT OR IGNORE skips the row when the id or the
    pair (name, vhost) is already there. *)
Definition declare_exchange (db : DB) (uuid4 : string)
    (name type vhost : string) (durable auto_delete : bool)
    : DB * outcome Exchange.t :=
  let exchange_id := uuid4 in
  let db' :=
    if existsb (fun e => (ex_id e =? exchange_id)
                         || ((ex_name e =? name) && (ex_vhost e =? vhost)))
         (exchanges db)
    then db
    else with_exchanges db
           (exchanges db ++
            [mk_exchange_row exchange_id name type vhost durable auto_delete])
  in
  (db', Returned (Exchange.mk exchange_id name type vhost durable auto_delete)).

Definition same_binding (a b : binding_row) : bool :=
  (b_queue_id a =? b_queue_id b) && (b_exchange_id a =? b_exchange_id b)
  && (b_routing_key a =? b_routing_key b).

Definition bind_queue (db : DB) (queue_name exchange_name routing_key vhost : string)
    : DB * outcome bool :=
  match select_queue db queue_name vhost, select_exchange db exchange_name vhost with
  | Some queue_result, Some exchange_result =>
      let row := mk_binding_row (q_id queue_result) (ex_id exchange_result)
                   routing_key vhost in
      ((if existsb (same_binding row) (bindings db) then db
        else with_bindings db (bindings db ++ [row])),
       Returned true)
  | _, _ => (db, Returned false)
  end.

(** [publish]: the row goes in with the empty text as its queue_id.
    sqlite3 refuses a priority outside 64 bits when it binds the parameters
    of the INSERT, before the statement runs. *)
Definition publish (db : DB) (uuid4 : string) (now : Clock)
    (exchange routing_key : string) (body : list Byte.byte)
    (headers : option PyDict) (priority : Z) (content_type vhost : string)
    : DB * outcome string :=
  let headers := or_empty headers in
  let message_id := uuid4 in
  match select_exchange db exchange vhost with
  | None => (db, Returned EmptyString)
  | Some exchange_result =>
      if negb (fits_int64 priority) then (db, Raised OverflowError)
      else if existsb (fun m => m_id m =? message_id) (messages db)
      then (db, Raised IntegrityError)
      else
        (with_messages db
           (messages db ++
            [mk_message_row message_id EmptyString exchange routing_key body
               (Some (py_str headers)) priority 2%Z content_type (now 0)
               None None 0%Z]),
         Returned message_id)
  end.

(** The loop of [consume] over the fetched rows: with [ack] each row's id is
    marked with the clock reading of its turn. *)
Fixpoint ack_rows (now : Clock) (k : nat) (rows : list message_row)
    (t : list message_row) : list message_row :=
  match rows with
  | [] => t
  | row :: rows' =>
      ack_rows now (S k) rows'
        (update_where (fun m => m_id m =? m_id row) (set_acked_at (now k)) t)
  end.

(** The SELECT of [consume]: no ORDER BY, so rows come in table order. *)
Definition select_ready (db : DB) (queue_id : string) (n : Z) : list message_row :=
  sql_limit n (filter (fun m => in_queue queue_id m && is_ready m) (messages db)).

(** [consume]: sqlite3 refuses a count outside 64 bits when it binds the
    parameters of the second SELECT, after the queue was found.  An [eval]
    that raises inside the loop leaves the method before [conn.commit()], so
    that none of the UPDATEs of the loop is kept. *)
Definition consume (db : DB) (now : Clock) (queue_name : string) (n : Z)
    (ack : bool) : DB * outcome (list (Message.t PyDict)) :=
  match select_queue_by_name db queue_name with
  | None => (db, Returned [])
  | Some queue_result =>
      let queue_id := q_id queue_result in
      if negb (fits_int64 n) then (db, Raised OverflowError)
      else
        let rows := select_ready db queue_id n in
        match collect (map Message_of_row rows) with
        | Returned delivered =>
            ((if ack then with_messages db (ack_rows now 0 rows (messages db))
              else db),
             Returned delivered)
        | Raised e => (db, Raised e)
        end
  end.

(** [nack]: [requeue] is accepted and never read. *)
Definition nack (db : DB) (now : Clock) (message_id : string) (requeue : bool)
    : DB * outcome bool :=
  (with_messages db
     (update_where (fun m => m_id m =? message_id) (set_nacked (now 0))
        (messages db)),
   Returned true).

Definition purge_queue (db : DB) (queue_name : string) : DB * outcome Z :=
  match select_queue_by_name db queue_name with
  | None => (db, Returned 0%Z)
  | Some result =>
      let queue_id := q_id result in
      (with_messages db (delete_where (in_queue queue_id) (messages db)),
       Returned (rowcount (in_queue queue_id) (messages db)))
  end.

Record queue_stats : Type := mk_queue_stats {
  stat_queues : Z;
  stat_total_messages : Z;
  stat_total_consumers : Z
}.

Definition zsum (l : list Z) : Z := fold_right Z.add 0%Z l.

(** [get_queue_stats]: [if queue_name] is false for None and for the empty
    text. *)
Definition get_queue_stats (db : DB) (queue_name : option string) : queue_stats :=
  let rows :=
    match queue_name with
    | Some (String c s) => filter (fun q => q_name q =? String c s) (queues db)
    | _ => queues db
    end in
  mk_queue_stats (Z.of_nat (length rows))
    (zsum (map q_message_count rows)) (zsum (map q_consumer_count rows)).

(** [dead_letter_queue]: declares the dead-letter queue with the default
    arguments of [declare_queue] first, then rewrites the arguments column
    of the source queue. *)
Definition dead_letter_queue (db : DB) (uuid4 : string) (now : Clock)
    (queue_name dlq_name : string) : DB * outcome bool :=
  match declare_queue db uuid4 now dlq_name "/" true false false None with
  | (db1, Raised e) => (db1, Raised e)
  | (db1, Returned _) =>
      match select_queue_by_name db1 queue_name with
      | Some result =>
          (with_queues db1
             (update_where (fun q => q_id q =? q_id result)
                (set_arguments (dead_letter_arguments dlq_name)) (queues db1)),
           Returned true)
      | None => (db1, Returned false)
      end
  end.

Definition Queue_of_row (r : queue_row) : outcome (Queue.t PyDict) :=
  match eval_or_empty (q_arguments r) with
  | Returned arguments =>
      Returned
        (Queue.mk (q_id r) (q_name r) (q_vhost r) (q_durable r) (q_exclusive r)
           (q_auto_delete r) arguments (q_message_count r)
           (q_consumer_count r) (q_created_at r) (q_last_message_at r))
  | Raised e => Raised e
  end.

(** [list_queues]: [if vhost] is false for None and for the empty text. *)
Definition list_queues (db : DB) (vhost : option string)
    : outcome (list (Queue.t PyDict)) :=
  collect
    (map Queue_of_row
       match vhost with
       | Some (String c s) => filter (fun q => q_vhost q =? String c s) (queues db)
       | _ => queues db
       end).

Definition get_pending_dlq (db : DB) (dlq_name : string)
    : outcome (list (Message.t PyDict)) :=
  match select_queue_by_name db dlq_name with
  | None => Returned []
  | Some result =>
      collect
        (map Message_of_row
           (filter (fun m => in_queue (q_id result) m && (3 <=? m_attempts m)%Z)
              (messages db)))
  end.

(** *** Runs of the broker *)

(** One call of a method that writes to the database, with the values the
    environment supplies to it (the uuid drawn, the clock). *)
Inductive call : Type :=
| DeclareQueue (uuid4 : string) (now : Clock) (name vhost : string)
    (durable exclusive auto_delete : bool) (arguments : option PyDict)
| DeclareExchange (uuid4 : string) (name type vhost : string)
    (durable auto_delete : bool)
| BindQueue (queue_name exchange_name routing_key vhost : string)
| Publish (uuid4 : string) (now : Clock) (exchange routing_key : string)
    (body : list Byte.byte) (headers : option PyDict) (priority : Z)
    (content_type vhost : string)
| Consume (now : Clock) (queue_name : string) (n : Z) (ack : bool)
| Nack (now : Clock) (message_id : string) (requeue : bool)
| PurgeQueue (queue_name : string)
| DeadLetterQueue (uuid4 : string) (now : Clock) (queue_name dlq_name : string).

Definition run (db : DB) (c : call) : DB :=
  match c with
  | DeclareQueue u now name vhost d e a args =>
      fst (declare_queue db u now name vhost d e a args)
  | DeclareExchange u name type vhost d a =>
      fst (declare_exchange db u name type vhost d a)
  | BindQueue q e k vhost => fst (bind_queue db q e k vhost)
  | Publish u now e k body h p ct vhost =>
      fst (publish db u now e k body h p ct vhost)
  | Consume now q n ack => fst (consume db now q n ack)
  | Nack now m requeue => fst (nack db now m requeue)
  | PurgeQueue q => fst (purge_queue db q)
  | DeadLetterQueue u now q dlq => fst (dead_letter_queue db u now q dlq)
  end.

Definition run_all (db : DB) (cs : list call) : DB := fold_left run cs db.

Definition is_hex_digit (c : ascii) : bool :=
  let n := nat_of_ascii c in
  (Nat.leb 48 n && Nat.leb n 57) || (Nat.leb 97 n && Nat.leb n 102).

(** The text of [str(uuid.uuid4())]: 36 characters, hyphens after 8, 13, 18
    and 23, lower-case hexadecimal digits elsewhere, version digit 4 and a
    variant digit among 8, 9, a, b. *)
Fixpoint uuid4_shape (k : nat) (s : string) : bool :=
  match s with
  | EmptyString => Nat.eqb k 36
  | String c s' =>
      (if Nat.eqb k 8 || Nat.eqb k 13 || Nat.eqb k 18 || Nat.eqb k 23
       then Ascii.eqb c "-"
       else if Nat.eqb k 14 then Ascii.eqb c "4"
       else if Nat.eqb k 19 then existsb (Ascii.eqb c) ["8"; "9"; "a"; "b"]%char
       else is_hex_digit c)
      && uuid4_shape (S k) s'
  end.

Definition is_uuid4_text (s : string) : bool := uuid4_shape 0 s.

Definition call_uuid (c : call) : option string :=
  match c with
  | DeclareQueue u _ _ _ _ _ _ _ => Some u
  | DeclareExchange u _ _ _ _ _ => Some u
  | Publish u _ _ _ _ _ _ _ _ => Some u
  | DeadLetterQueue u _ _ _ => Some u
  | _ => None
  end.

Definition uuid_ok (c : call) : bool :=
  match call_uuid c with Some u => is_uuid4_text u | None => true end.

(** The databases the broker itself can produce: any sequence of calls from
    the database [_init_db] creates, the uuids being uuid texts. *)
Inductive reachable : DB -> Prop :=
| reach_init : reachable empty_db
| reach_call (db : DB) (c : call) :
    reachable db -> uuid_ok c = true -> reachable (run db c).

(** *** The message count of a queue *)

(** The messages of a queue that are ready or delivered without an
    acknowledgement: the rows of the queue with acked_at and nacked_at both
    NULL (a [consume] with [ack] false delivers a row and leaves it so). *)
Definition pending_count (db : DB) (queue_id : string) : Z :=
  Z.of_nat (length (filter (fun m => in_queue queue_id m && is_ready m)
                      (messages db))).

Definition count_invariant (db : DB) : Prop :=
  forall q, In q (queues db) -> q_message_count q = pending_count db (q_id q).

(** *** The Router of the specification

    The source has no router.  [spec_route] follows section 4.2 of the
    specification over the broker's tables, and serves only to say which
    queues a publish matches.  Header exchanges need binding arguments the
    bindings table does not have: no answer for them. *)

Fixpoint words_from (cur s : string) : list string :=
  match s with
  | EmptyString => [cur]
  | String c s' =>
      if Ascii.eqb c "."
      then cur :: words_from EmptyString s'
      else words_from (cur ++ String c EmptyString) s'
  end.

Definition words (s : string) : list string := words_from EmptyString s.

Fixpoint topic_match (pattern key : list string) : bool :=
  match pattern with
  | [] => match key with [] => true | _ :: _ => false end
  | w :: pattern' =>
      if w =? "#" then
        (fix skip (key : list string) : bool :=
           topic_match pattern' key
           || match key with [] => false | _ :: key' => skip key' end) key
      else
        match key with
        | [] => false
        | k :: key' => ((w =? "*") || (w =? k)) && topic_match pattern' key'
        end
  end.

Definition spec_route (db : DB) (exchange vhost routing_key : string)
    : option (list string) :=
  match select_exchange db exchange vhost with
  | None => None
  | Some e =>
      let bound := filter (fun b => b_exchange_id b =? ex_id e) (bindings db) in
      let queue_ids (bs : list binding_row) :=
        Some (nodup string_dec (map b_queue_id bs)) in
      if ex_type e =? "direct" then
        queue_ids (filter (fun b => b_routing_key b =? routing_key) bound)
      else if ex_type e =? "fanout" then queue_ids bound
      else if ex_type e =? "topic" then
        queue_ids (filter (fun b => topic_match (words (b_routing_key b))
                                      (words routing_key)) bound)
      else None
  end.

End Broker.

(** ** The command line of the module *)

(** What the script can end with besides running to its end: [sys.exit] or
    an exception nothing catches, of the script itself or of the method it
    calls. *)
Inductive cli_exn : Type :=
| IndexError
| ValueError
| UnicodeDecodeError
| MethodError (e : exn).

Inductive cli_status : Type :=
| Finished
| SystemExit (code : Z)
| Uncaught (e : cli_exn).

Record cli_result : Type := mk_cli_result {
  stdout : list string;
  status : cli_status
}.

(** The built-ins of the script that are not modelled: [int] on a text
    (None for ValueError), [str.encode] and [bytes.decode] (None for
    UnicodeDecodeError). *)
Class CliBuiltins : Type := {
  py_int : string -> option Z;
  py_encode : string -> list Byte.byte;
  py_decode : list Byte.byte -> option string
}.

(** [str] of an integer inside an f-string. *)
Definition str_of_int (z : Z) : string := NilZero.string_of_int (Z.to_int z).

Definition usage : string :=
  "Usage: python message_queue.py {queues|publish|consume}".

Section Cli.

Context {py : PyBuiltins} {cli : CliBuiltins}.

Definition queue_line (q : Queue.t PyDict) : string :=
  Queue.name q ++ " (" ++ Queue.vhost q ++ "): "
    ++ str_of_int (Queue.message_count q) ++ " messages".

(** The loop that prints the consumed messages: it stops at the first body
    that does not decode. *)
Fixpoint print_messages (ms : list (Message.t PyDict))
    : list string * cli_status :=
  match ms with
  | [] => ([], Finished)
  | msg :: ms' =>
      match py_decode (Message.body msg) with
      | None => ([], Uncaught UnicodeDecodeError)
      | Some text =>
          let (out, st) := print_messages ms' in
          (("Message " ++ Message.id msg ++ ": " ++ text)%string :: out, st)
      end
  end.

(** [n = int(sys.argv[4]) if "--n" in sys.argv else 1]. *)
Definition consume_count (argv : list string) : cli_exn + Z :=
  if existsb (String.eqb "--n") argv then
    match nth_error argv 4 with
    | None => inl IndexError
    | Some text =>
        match py_int text with
        | None => inl ValueError
        | Some n => inr n
        end
    end
  else inr 1%Z.

(** The block under [if __name__ == "__main__"]: [file] is what the
    database file holds when the script starts (None when there is none),
    [argv] is [sys.argv], [uuid4] and [now] are what the one method call of
    the run draws. *)
Definition main (file : option DB) (argv : list string) (uuid4 : string)
    (now : Clock) : DB * cli_result :=
  let db := init_db file in
  match argv with
  | [] => (db, mk_cli_result [usage] (SystemExit 1))
  | [_] => (db, mk_cli_result [usage] (SystemExit 1))
  | _ :: cmd :: _ =>
      if cmd =? "queues" then
        match list_queues db None with
        | Returned listed => (db, mk_cli_result (map queue_line listed) Finished)
        | Raised e => (db, mk_cli_result [] (Uncaught (MethodError e)))
        end
      else if (cmd =? "publish") && (5 <=? length argv)%nat then
        let exchange := nth 2 argv EmptyString in
        let routing_key := nth 3 argv EmptyString in
        let body := py_encode (nth 4 argv EmptyString) in
        match publish db uuid4 now exchange routing_key body None 0%Z
                "text/plain" "/" with
        | (db', Returned msg_id) =>
            (db', mk_cli_result [("Published: " ++ msg_id)%string] Finished)
        | (db', Raised e) => (db', mk_cli_result [] (Uncaught (MethodError e)))
        end
      else if (cmd =? "consume") && (3 <=? length argv)%nat then
        let queue_name := nth 2 argv EmptyString in
        match consume_count argv with
        | inl e => (db, mk_cli_result [] (Uncaught e))
        | inr n =>
            match consume db now queue_name n true with
            | (db', Returned delivered) =>
                let (out, st) := print_messages delivered in
                (db', mk_cli_result out st)
            | (db', Raised e) =>
                (db', mk_cli_result [] (Uncaught (MethodError e)))
            end
        end
      else (db, mk_cli_result [] Finished)
  end.

End Cli.

(** ** Concrete databases *)

(** The texts [eval] rejects in the examples: those with an odd number of
    double quotes, as the f-string of [dead_letter_queue] builds from a name
    that holds one. *)
Definition balanced_quotes (s : string) : bool :=
  Nat.even (length (filter (Ascii.eqb (ascii_of_nat 34)) (list_ascii_of_string s))).

(** Dictionaries taken as their own text: [str] is then the identity, and
    [eval] gives a text back unless its quotes do not balance. *)
#[local] Instance text_builtins : PyBuiltins := {|
  PyDict := string;
  empty_dict := "{}";
  py_str := fun d => d;
  py_eval := fun s => if balanced_quotes s then Some s else None
|}.

(** Texts restricted to ASCII, taken as their bytes, and [int] on plain
    decimal numerals: a body with a byte above 127 does not decode. *)
#[local] Instance ascii_cli : CliBuiltins := {|
  py_int := fun s => option_map Z.of_int (NilZero.int_of_string s);
  py_encode := list_byte_of_string;
  py_decode := fun b =>
    if forallb (fun x => (Byte.to_nat x <? 128)%nat) b
    then Some (string_of_list_byte b) else None
|}.

Definition tick : Clock := fun k => Z.of_nat k.

Definition u_logs : string := "0a0a0a0a-0000-4000-8000-00000000e001".
Definition u_other : string := "0a0a0a0a-0000-4000-8000-00000000e002".
Definition u_alpha : string := "0a0a0a0a-0000-4000-8000-00000000a001".
Definition u_beta : string := "0a0a0a0a-0000-4000-8000-00000000a002".
Definition u_work : string := "0a0a0a0a-0000-4000-9000-00000000b001".
Definition u_dead : string := "0a0a0a0a-0000-4000-9000-00000000b002".
Definition u_msg : string := "0a0a0a0a-0000-4000-a000-00000000c001".

(** A fanout exchange with two bound queues, built by the broker. *)
Definition fanout_calls : list call :=
  [ DeclareExchange u_logs "logs" "fanout" "/" true false;
    DeclareQueue u_alpha tick "alpha" "/" true false false None;
    DeclareQueue u_beta tick "beta" "/" true false false None;
    BindQueue "alpha" "logs" "any" "/";
    BindQueue "beta" "logs" "any" "/" ].

Definition fanout_db : DB := run_all empty_db fanout_calls.

(** A dead-letter name with a double quote in it: the arguments text the
    broker then stores for queue work is no expression. *)
Definition quoted_name : string := ("a" ++ dquote ++ "b")%string.

Definition quoted_calls : list call :=
  [ DeclareQueue u_work tick "work" "/" true false false None;
    DeadLetterQueue u_dead tick "work" quoted_name ].

Definition quoted_db : DB := run_all empty_db quoted_calls.

(** A message row stored under a queue.  [publish] never writes such a row;
    it stands for a database the broker is opened on. *)
Definition stored (id queue_id : string) (priority : Z) : message_row :=
  mk_message_row id queue_id "jobs" "job.run" [] (Some "{}") priority 2%Z
    "text/plain" 0%Z None None 0%Z.

Definition work_queue : queue_row :=
  mk_queue_row u_work "work" "/" true false false (Some "{}") 0%Z 0%Z 0%Z None.

(** Queue work holding one ready message whose body is the single byte
    0xff. *)
Definition binary_db : DB :=
  mk_DB [] [work_queue] []
    [mk_message_row "m1" u_work "jobs" "job.run" [Byte.xff] (Some "{}") 0%Z 2%Z
       "text/plain" 0%Z None None 0%Z].

(** Queue work holding one ready message. *)
Definition one_message_db : DB :=
  mk_DB [] [work_queue] [] [stored "m1" u_work 0].

(** Queue work holding messages of priorities 1, 5 and 3 in that order. *)
Definition priorities_db : DB :=
  mk_DB [] [work_queue] []
    [stored "m1" u_work 1; stored "m2" u_work 5; stored "m3" u_work 3].

(** Queue work holding seven ready messages. *)
Definition seven_db : DB :=
  mk_DB [] [work_queue] []
    (map (fun id => stored id u_work 0) ["m1"; "m2"; "m3"; "m4"; "m5"; "m6"; "m7"]).

(** Queue work with dead-letter queue dead configured by the broker, and
    one message under work. *)
Definition dead_letter_db : DB :=
  fst (dead_letter_queue one_message_db u_dead tick "work" "dead").

(** An exchange logs of type fanout, declared by the broker. *)
Definition logs_db : DB :=
  fst (declare_exchange empty_db u_logs "logs" "fanout" "/" true false).

(** Queue work with a message count of one and one ready message: the
    count is right, and no run of the broker produces this database. *)
Definition counted_db : DB :=
  mk_DB []
    [mk_queue_row u_work "work" "/" true false false (Some "{}") 1%Z 0%Z 0%Z None]
    [] [stored "m1" u_work 0].

(** ** Auxiliary notions for the proofs *)

(** The message rows a call appended to the table. *)
Definition created_records (db db' : DB) : list message_row :=
  skipn (length (messages db)) (messages db').

(** What every run of the broker maintains: no message row names a queue,
    every queue has a non-empty id and a message count of zero. *)
Definition detached (db : DB) : Prop :=
  Forall (fun m => m_queue_id m = EmptyString) (messages db)
  /\ Forall (fun q => q_id q <> EmptyString /\ q_message_count q = 0%Z) (queues db).

(** The PRIMARY KEY and UNIQUE constraints of the four tables. *)
Definition schema_ok (db : DB) : Prop :=
  NoDup (map ex_id (exchanges db))
  /\ NoDup (map (fun e => (ex_name e, ex_vhost e)) (exchanges db))
  /\ NoDup (map q_id (queues db))
  /\ NoDup (map (fun q => (q_name q, q_vhost q)) (queues db))
  /\ NoDup (map (fun b => (b_queue_id b, b_exchange_id b, b_routing_key b))
              (bindings db))
  /\ NoDup (map m_id (messages db)).

Definition set_priority (p : Z) (m : message_row) : message_row :=
  mk_message_row (m_id m) (m_queue_id m) (m_exchange m) (m_routing_key m)
    (m_body m) (m_headers m) p (m_delivery_mode m)
    (m_content_type m) (m_published_at m) (m_acked_at m) (m_nacked_at m)
    (m_attempts m).

(** The same database with other priorities on its messages. *)
Definition reprioritized (f : message_row -> Z) (db : DB) : DB :=
  with_messages db (map (fun m => set_priority (f m) m) (messages db)).

(** The number of queue rows under a (name, vhost) pair. *)
Definition count_queues (db : DB) (name vhost : string) : nat :=
  length (filter (fun q => (q_name q =? name) && (q_vhost q =? vhost)) (queues db)).

(** Every binding names a stored queue and a stored exchange of its vhost. *)
Definition bindings_resolve (db : DB) : Prop :=
  forall b, In b (bindings db) ->
    (exists q, In q (queues db) /\ q_id q = b_queue_id b /\ q_vhost q = b_vhost b)
    /\ (exists e, In e (exchanges db) /\ ex_id e = b_exchange_id b
                  /\ ex_vhost e = b_vhost b).

(** ** Properties of the statements *)

Section TableLemmas.

Context {R : Type}.
Implicit Types (p : R -> bool) (f : R -> R) (t : list R).

Lemma update_where_length p f t : length (update_where p f t) = length t.
Proof. apply length_map. Qed.

Lemma update_where_none p f t :
  (forall r, In r t -> p r = false) -> update_where p f t = t.
Proof.
  induction t as [|r t IH]; intros H; [reflexivity|].
  cbn. rewrite (H r (or_introl eq_refl)). f_equal.
  apply IH. intros x Hx. apply H. now right.
Qed.

Lemma update_where_nth p f t i r :
  nth_error t i = Some r ->
  nth_error (update_where p f t) i = Some (if p r then f r else r).
Proof.
  intros H. unfold update_where. rewrite nth_error_map, H. reflexivity.
Qed.

Lemma Forall_update_where (P : R -> Prop) p f t :
  (forall r, P r -> P (f r)) -> Forall P t -> Forall P (update_where p f t).
Proof.
  intros Hf H. induction H as [|r t Hr _ IH]; cbn; constructor; auto.
  destruct (p r); auto.
Qed.

Lemma Forall_delete_where (P : R -> Prop) p t :
  Forall P t -> Forall P (delete_where p t).
Proof.
  intros H. induction H as [|r t Hr _ IH]; cbn; [constructor|].
  destruct (p r); cbn; auto.
Qed.

Lemma find_none_filter p t : find p t = None -> filter p t = [].
Proof.
  induction t as [|r t IH]; cbn; [reflexivity|].
  destruct (p r); [discriminate | exact IH].
Qed.

Lemma find_none_existsb p t : find p t = None -> existsb p t = false.
Proof.
  induction t as [|r t IH]; cbn; [reflexivity|].
  destruct (p r); [discriminate | exact IH].
Qed.

Lemma find_some_existsb p t r : find p t = Some r -> existsb p t = true.
Proof.
  induction t as [|x t IH]; cbn; [discriminate|].
  destruct (p x); [reflexivity | exact IH].
Qed.

Lemma find_app_none p t t' : find p t = None -> find p (t ++ t') = find p t'.
Proof.
  induction t as [|r t IH]; cbn; [reflexivity|].
  destruct (p r); [discriminate | exact IH].
Qed.

Lemma find_app_some p t t' r : find p t = Some r -> find p (t ++ t') = Some r.
Proof.
  induction t as [|x t IH]; cbn; [discriminate|].
  destruct (p x); [trivial | exact IH].
Qed.

(** A lookup sees an UPDATE that does not touch the columns it tests. *)
Lemma find_update_where p (c : R -> bool) f t :
  (forall r, p (f r) = p r) ->
  find p (update_where c f t)
  = option_map (fun r => if c r then f r else r) (find p t).
Proof.
  intros Hp. induction t as [|r t IH]; cbn; [reflexivity|].
  destruct (c r) eqn:Hc.
  - rewrite Hp. destruct (p r); [cbn; now rewrite Hc | exact IH].
  - destruct (p r); [cbn; now rewrite Hc | exact IH].
Qed.

Lemma sql_limit_prefix (n : Z) t : exists rest, t = sql_limit n t ++ rest.
Proof.
  unfold sql_limit. destruct (n <? 0)%Z.
  - exists []. now rewrite app_nil_r.
  - exists (skipn (Z.to_nat n) t). symmetry. apply firstn_skipn.
Qed.

Lemma sql_limit_length (n : Z) t :
  length (sql_limit n t)
  = if (n <? 0)%Z then length t else Nat.min (Z.to_nat n) (length t).
Proof.
  unfold sql_limit. destruct (n <? 0)%Z; [reflexivity | apply length_firstn].
Qed.

Lemma map_update_where {K : Type} (key : R -> K) p f t :
  (forall r, key (f r) = key r) -> map key (update_where p f t) = map key t.
Proof.
  intros Hk. unfold update_where. rewrite map_map. apply map_ext.
  intros r. destruct (p r); [apply Hk | reflexivity].
Qed.

Lemma NoDup_map_filter {K : Type} (key : R -> K) p t :
  NoDup (map key t) -> NoDup (map key (filter p t)).
Proof.
  induction t as [|r t IH]; cbn; intros H; [constructor|].
  inversion H as [|? ? Hnotin Hnodup]; subst.
  destruct (p r); cbn; [|now apply IH].
  constructor; [|now apply IH].
  intros Hin. apply Hnotin. apply in_map_iff in Hin as [x [Hx Hin]].
  apply in_map_iff. exists x. split; [exact Hx|].
  now apply filter_In in Hin as [Hin _].
Qed.

(** A row whose key is [k] would have passed the test of the INSERT. *)
Lemma key_absent {K : Type} (key : R -> K) (test : R -> bool) (k : K) t :
  (forall r, key r = k -> test r = true) ->
  existsb test t = false -> ~ In k (map key t).
Proof.
  intros Htest Hex Hin. apply in_map_iff in Hin as [r [Hk Hin]].
  assert (existsb test t = true) as Htrue.
  { apply existsb_exists. exists r. split; [exact Hin | now apply Htest]. }
  congruence.
Qed.

Lemma NoDup_map_snoc {K : Type} (key : R -> K) t r :
  NoDup (map key t) -> ~ In (key r) (map key t) -> NoDup (map key (t ++ [r])).
Proof.
  intros Hnd Hnotin. rewrite map_app. cbn.
  apply NoDup_app; [exact Hnd | repeat constructor; intros [] |].
  intros k Hk [<-|[]]. contradiction.
Qed.

Lemma NoDup_key_filter_length {K : Type} (key : R -> K) (test : R -> bool) (k : K) t :
  (forall r, test r = true -> key r = k) ->
  NoDup (map key t) -> (length (filter test t) <= 1)%nat.
Proof.
  intros Htest. induction t as [|r t IH]; cbn; intros H; [lia|].
  inversion H as [|? ? Hnotin Hnodup]; subst.
  destruct (test r) eqn:Hr; [|now apply IH].
  assert (filter test t = []) as ->; [|cbn; lia].
  destruct (filter test t) as [|x l] eqn:Hf; [reflexivity|].
  exfalso. apply Hnotin.
  assert (In x (filter test t)) as Hx by (rewrite Hf; now left).
  apply filter_In in Hx as [Hin Hb].
  rewrite (Htest r Hr), <- (Htest x Hb). now apply in_map.
Qed.

End TableLemmas.

Lemma sql_limit_map {A B : Type} (g : A -> B) (n : Z) (t : list A) :
  sql_limit n (map g t) = map g (sql_limit n t).
Proof.
  unfold sql_limit. destruct (n <? 0)%Z; [reflexivity | apply firstn_map].
Qed.

(** *** Sequences of evaluations *)

Lemma collect_Forall2 {A B : Type} (g : A -> outcome B) (l : list A)
    (out : list B) :
  collect (map g l) = Returned out ->
  Forall2 (fun a b => g a = Returned b) l out.
Proof.
  revert out. induction l as [|a l IH]; cbn; intros out.
  - intros [= <-]. constructor.
  - destruct (g a) as [b|e] eqn:Ha; [|discriminate].
    destruct (collect (map g l)) as [t|e]; [|discriminate].
    intros [= <-]. constructor; [exact Ha | now apply IH].
Qed.

Lemma collect_returns {A B : Type} (g : A -> outcome B) (l : list A) :
  Forall (fun a => exists b, g a = Returned b) l ->
  exists out, collect (map g l) = Returned out.
Proof.
  induction 1 as [|a l [b Hb] _ [out IH]]; cbn; [eauto|].
  rewrite Hb, IH. eauto.
Qed.

Lemma collect_In {A B : Type} (g : A -> outcome B) (l : list A) (out : list B)
    (b : B) :
  collect (map g l) = Returned out -> In b out ->
  exists a, In a l /\ g a = Returned b.
Proof.
  intros H. apply collect_Forall2 in H.
  induction H as [|a x l out Hax _ IH]; intros Hin; [destruct Hin|].
  destruct Hin as [<-|Hin].
  - exists a. split; [now left | exact Hax].
  - destruct (IH Hin) as [a' [Ha' Hg]]. exists a'. split; [now right | exact Hg].
Qed.


Lemma collect_map {A B C : Type} (g : A -> outcome B) (h : B -> C) (k : A -> C)
    (l : list A) (out : list B) :
  (forall a b, g a = Returned b -> h b = k a) ->
  collect (map g l) = Returned out -> map h out = map k l.
Proof.
  intros Hk H. apply collect_Forall2 in H.
  induction H as [|a b l out Hab _ IH]; cbn; [reflexivity|].
  now rewrite IH, (Hk a b Hab).
Qed.


(** *** The lookup of a queue by its name *)



Lemma first_by_vhost_In (rows : list queue_row) (q : queue_row) :
  first_by_vhost rows = Some q -> In q rows.
Proof.
  revert q. induction rows as [|r rows IH]; cbn; intros q; [discriminate|].
  destruct (first_by_vhost rows) as [b|].
  - destruct (String.ltb (q_vhost b) (q_vhost r)); intros [= <-]; auto.
  - intros [= <-]. now left.
Qed.

Lemma first_by_vhost_none (rows : list queue_row) :
  first_by_vhost rows = None -> rows = [].
Proof.
  destruct rows as [|r rows]; cbn; [reflexivity|].
  destruct (first_by_vhost rows) as [b|]; [|discriminate].
  now destruct (String.ltb (q_vhost b) (q_vhost r)).
Qed.

Lemma first_by_vhost_some (rows : list queue_row) :
  rows <> [] -> exists q, first_by_vhost rows = Some q.
Proof.
  intros Hne. destruct (first_by_vhost rows) as [q|] eqn:E; [eauto|].
  now apply first_by_vhost_none in E.
Qed.

Lemma first_by_vhost_map (g : queue_row -> queue_row) (rows : list queue_row) :
  (forall r, q_vhost (g r) = q_vhost r) ->
  first_by_vhost (map g rows) = option_map g (first_by_vhost rows).
Proof.
  intros Hg. induction rows as [|r rows IH]; cbn; [reflexivity|].
  rewrite IH. destruct (first_by_vhost rows) as [b|]; cbn; [|reflexivity].
  rewrite !Hg. now destruct (String.ltb (q_vhost b) (q_vhost r)).
Qed.

Lemma ltb_lt (a b : string) : String.ltb a b = true <-> String_as_OT.lt a b.
Proof.
  unfold String.ltb. rewrite <- String_as_OT.cmp_lt. unfold String_as_OT.cmp.
  destruct (a ?= b)%string; split; congruence.
Qed.

Lemma not_ltb_chain (r b q : string) :
  String.ltb r b = false -> String.ltb b q = false -> String.ltb r q = false.
Proof.
  intros Hrb Hbq. destruct (String.ltb r q) eqn:Hrq; [|reflexivity].
  exfalso. apply ltb_lt in Hrq.
  destruct (b ?= r)%string eqn:C.
  - apply String.compare_eq_iff in C. subst b.
    apply ltb_lt in Hrq. congruence.
  - assert (String.ltb b q = true); [|congruence].
    apply ltb_lt. apply (String_as_OT.lt_trans b r q); [|exact Hrq].
    now apply String_as_OT.cmp_lt.
  - assert (String.ltb r b = true); [|congruence].
    unfold String.ltb. rewrite String.compare_antisym, C. reflexivity.
Qed.

Lemma ltb_irrefl (a : string) : String.ltb a a = false.
Proof.
  destruct (String.ltb a a) eqn:H; [|reflexivity].
  apply ltb_lt in H. exfalso. now apply (String_as_OT.lt_not_eq a a H).
Qed.

Lemma ltb_asym (a b : string) : String.ltb a b = true -> String.ltb b a = false.
Proof.
  intros H. unfold String.ltb in *. rewrite String.compare_antisym.
  now destruct (a ?= b)%string.
Qed.

(** No row has a smaller vhost than the one the index gives first. *)
Lemma first_by_vhost_least (rows : list queue_row) (q : queue_row) :
  first_by_vhost rows = Some q ->
  forall r, In r rows -> String.ltb (q_vhost r) (q_vhost q) = false.
Proof.
  revert q. induction rows as [|x rows IH]; cbn; intros q; [discriminate|].
  destruct (first_by_vhost rows) as [b|] eqn:Hb.
  - destruct (String.ltb (q_vhost b) (q_vhost x)) eqn:Hbx; intros [= <-] r [<-|Hr].
    + now apply ltb_asym.
    + now apply IH.
    + apply ltb_irrefl.
    + apply (not_ltb_chain _ (q_vhost b)); [now apply IH | exact Hbx].
  - intros [= <-] r [<-|Hr]; [apply ltb_irrefl|].
    apply first_by_vhost_none in Hb. subst rows. destruct Hr.
Qed.

Lemma select_queue_by_name_least (db : DB) (name : string) (q : queue_row) :
  select_queue_by_name db name = Some q ->
  forall r, In r (queues db) -> q_name r = name ->
            String.ltb (q_vhost r) (q_vhost q) = false.
Proof.
  unfold select_queue_by_name. intros H r Hr Hn.
  apply (first_by_vhost_least _ _ H). apply filter_In. split; [exact Hr|].
  now apply String.eqb_eq.
Qed.

Lemma select_queue_by_name_In (db : DB) (name : string) (q : queue_row) :
  select_queue_by_name db name = Some q -> In q (queues db) /\ q_name q = name.
Proof.
  unfold select_queue_by_name. intros H. apply first_by_vhost_In in H.
  apply filter_In in H as [Hin Hb]. now apply String.eqb_eq in Hb.
Qed.

Lemma select_queue_by_name_same (db db' : DB) (name : string) :
  queues db' = queues db ->
  select_queue_by_name db' name = select_queue_by_name db name.
Proof. unfold select_queue_by_name. now intros ->. Qed.

(** The lookup sees an UPDATE that leaves names and vhosts alone. *)
Lemma select_queue_by_name_update (db : DB) (name : string)
    (c : queue_row -> bool) (f : queue_row -> queue_row) :
  (forall r, q_name (f r) = q_name r) ->
  (forall r, q_vhost (f r) = q_vhost r) ->
  select_queue_by_name (with_queues db (update_where c f (queues db))) name
  = option_map (fun r => if c r then f r else r) (select_queue_by_name db name).
Proof.
  intros Hn Hv. unfold select_queue_by_name. cbn [queues with_queues].
  unfold update_where.
  assert (forall l,
             filter (fun q => q_name q =? name)
               (map (fun r => if c r then f r else r) l)
             = map (fun r => if c r then f r else r)
                 (filter (fun q => q_name q =? name) l)) as ->.
  { induction l as [|r l IH]; cbn; [reflexivity|].
    assert (q_name (if c r then f r else r) = q_name r) as ->
        by (destruct (c r); [apply Hn | reflexivity]).
    destruct (q_name r =? name); cbn; now rewrite IH. }
  apply first_by_vhost_map. intros r. destruct (c r); [apply Hv | reflexivity].
Qed.


Lemma with_messages_same (db : DB) : with_messages db (messages db) = db.
Proof. now destruct db. Qed.

Lemma uuid4_text_nonempty (s : string) : is_uuid4_text s = true -> s <> EmptyString.
Proof. intros H ->. discriminate H. Qed.

(** ** What every run maintains *)

Section Runs.

Context {py : PyBuiltins}.

(** What [publish] and [consume] leave in the database. *)
Lemma publish_fst db u now e k body h p ct vhost :
  fst (publish db u now e k body h p ct vhost) = db
  \/ (existsb (fun m => m_id m =? u) (messages db) = false
      /\ fst (publish db u now e k body h p ct vhost)
         = with_messages db
             (messages db ++
              [mk_message_row u EmptyString e k body (Some (py_str (or_empty h)))
                 p 2%Z ct (now 0%nat) None None 0%Z])).
Proof.
  unfold publish. destruct (select_exchange db e vhost); [|now left].
  destruct (negb (fits_int64 p)); [now left|].
  destruct (existsb _ (messages db)); [now left | now right].
Qed.

Lemma consume_fst db now queue_name n ack :
  fst (consume db now queue_name n ack) = db
  \/ (exists q,
         select_queue_by_name db queue_name = Some q
         /\ fst (consume db now queue_name n ack)
            = with_messages db
                (ack_rows now 0 (select_ready db (q_id q) n) (messages db))).
Proof.
  unfold consume. destruct (select_queue_by_name db queue_name) as [q|]; [|now left].
  destruct (negb (fits_int64 n)); [now left|].
  destruct (collect _); [|now left].
  destruct ack; [right; now exists q | now left].
Qed.

Lemma ack_rows_Forall (P : message_row -> Prop) now rows :
  (forall t m, P m -> P (set_acked_at t m)) ->
  forall k t, Forall P t -> Forall P (ack_rows now k rows t).
Proof.
  intros HP. induction rows as [|row rows IH]; intros k t Ht; cbn; [exact Ht|].
  apply IH. apply Forall_update_where; auto.
Qed.

Lemma declare_queue_detached db u now name vhost d e a args :
  is_uuid4_text u = true -> detached db ->
  detached (fst (declare_queue db u now name vhost d e a args)).
Proof.
  intros Hu [Hm Hq]. unfold declare_queue.
  destruct (select_queue db name vhost); [now split|].
  destruct (existsb _ (queues db)); [now split|].
  split; cbn; [exact Hm|].
  apply Forall_app. split; [exact Hq|].
  constructor; [|constructor]. cbn. split; [|reflexivity].
  now apply uuid4_text_nonempty.
Qed.

Lemma run_detached db c : detached db -> uuid_ok c = true -> detached (run db c).
Proof.
  intros Hd Hu. pose proof Hd as [Hm Hq].
  destruct c; cbn [run]; unfold uuid_ok in Hu; cbn in Hu.
  - now apply declare_queue_detached.
  - unfold declare_exchange. cbn. destruct (existsb _ _); now split.
  - unfold bind_queue.
    destruct (select_queue _ _ _); [|now split].
    destruct (select_exchange _ _ _); [|now split].
    cbn. destruct (existsb _ _); now split.
  - destruct (publish_fst db uuid4 now exchange routing_key body headers priority
                content_type vhost) as [->|[_ ->]]; [now split|].
    split; cbn; [|exact Hq].
    apply Forall_app. split; [exact Hm|]. now repeat constructor.
  - destruct (consume_fst db now queue_name n ack) as [->|[q [_ ->]]]; [now split|].
    split; cbn; [|exact Hq]. now apply ack_rows_Forall.
  - unfold nack. split; cbn; [|exact Hq]. now apply Forall_update_where.
  - unfold purge_queue. destruct (select_queue_by_name _ _); [|now split].
    split; cbn; [|exact Hq]. now apply Forall_delete_where.
  - unfold dead_letter_queue.
    pose proof (declare_queue_detached db uuid4 now dlq_name "/" true false false
                  None Hu Hd) as H1.
    destruct (declare_queue _ _ _ _ _ _ _ _ _) as [db1 [q|ex]]; cbn in H1 |- *;
      [|exact H1].
    destruct (select_queue_by_name db1 queue_name); [|exact H1].
    destruct H1 as [Hm1 Hq1]. split; cbn; [exact Hm1|].
    apply Forall_update_where; [|exact Hq1]. now intros r [? ?].
Qed.

Lemma reachable_detached db : reachable db -> detached db.
Proof.
  induction 1 as [|db c _ IH Hu].
  - split; constructor.
  - now apply run_detached.
Qed.

Lemma detached_no_message db q :
  detached db -> In q (queues db) ->
  filter (in_queue (q_id q)) (messages db) = [].
Proof.
  intros [Hm Hq] Hin.
  rewrite Forall_forall in Hq. destruct (Hq q Hin) as [Hne _].
  induction Hm as [|m t Hmq _ IH]; [reflexivity|].
  cbn. unfold in_queue at 1. rewrite Hmq.
  destruct (String.eqb_spec EmptyString (q_id q)) as [E|_]; [|exact IH].
  now symmetry in E.
Qed.

Lemma detached_count_invariant db : detached db -> count_invariant db.
Proof.
  intros Hd q Hin. unfold pending_count.
  assert (filter (fun m => in_queue (q_id q) m && is_ready m) (messages db) = [])
    as ->.
  { pose proof (detached_no_message db q Hd Hin) as H.
    induction (messages db) as [|m t IH]; [reflexivity|].
    cbn in H |- *. destruct (in_queue (q_id q) m); [discriminate|].
    cbn. now apply IH. }
  destruct Hd as [_ Hq]. rewrite Forall_forall in Hq.
  now destruct (Hq q Hin).
Qed.

Lemma ack_rows_ids now rows :
  forall k t, map m_id (ack_rows now k rows t) = map m_id t.
Proof.
  induction rows as [|row rows IH]; intros k t; cbn; [reflexivity|].
  rewrite IH. now apply map_update_where.
Qed.

Lemma pair_eqb_true (a b x y : string) :
  (a, b) = (x, y) -> (a =? x) && (b =? y) = true.
Proof. intros [= -> ->]. now rewrite !String.eqb_refl. Qed.

Lemma declare_queue_schema_ok db u now name vhost d e a args :
  schema_ok db -> schema_ok (fst (declare_queue db u now name vhost d e a args)).
Proof.
  intros Hs. unfold declare_queue.
  destruct (select_queue db name vhost) eqn:Hsel; [exact Hs|].
  destruct (existsb _ (queues db)) eqn:Hid; [exact Hs|].
  destruct Hs as (Hei & Hen & Hqi & Hqn & Hb & Hm).
  repeat split; cbn; auto.
  - apply (NoDup_map_snoc q_id); [exact Hqi|]. cbn.
    apply (key_absent q_id (fun q => q_id q =? u)); [|exact Hid].
    intros r <-. apply String.eqb_refl.
  - apply (NoDup_map_snoc (fun q => (q_name q, q_vhost q))); [exact Hqn|]. cbn.
    apply (key_absent _ (fun q => (q_name q =? name) && (q_vhost q =? vhost))).
    + intros r. apply pair_eqb_true.
    + now apply find_none_existsb.
Qed.

(** Every call keeps the PRIMARY KEY and UNIQUE constraints: the inserts of
    the model refuse or skip exactly the rows SQLite would. *)
Lemma run_schema_ok db c : schema_ok db -> schema_ok (run db c).
Proof.
  intros Hs. pose proof Hs as (Hei & Hen & Hqi & Hqn & Hb & Hm).
  destruct c; cbn [run].
  - now apply declare_queue_schema_ok.
  - unfold declare_exchange. cbn.
    destruct (existsb _ (exchanges db)) eqn:Hex; [exact Hs|].
    repeat split; cbn; auto.
    + apply (NoDup_map_snoc ex_id); [exact Hei|]. cbn.
      eapply key_absent; [|exact Hex].
      intros r <-. cbn. now rewrite String.eqb_refl.
    + apply (NoDup_map_snoc (fun x => (ex_name x, ex_vhost x))); [exact Hen|].
      cbn. eapply key_absent; [|exact Hex].
      intros r Hr. cbn. rewrite (pair_eqb_true _ _ _ _ Hr). apply orb_true_r.
  - unfold bind_queue.
    destruct (select_queue _ _ _) as [q|]; [|exact Hs].
    destruct (select_exchange _ _ _) as [x|]; [|exact Hs].
    cbn. destruct (existsb _ (bindings db)) eqn:Hex; [exact Hs|].
    repeat split; cbn; auto.
    apply (NoDup_map_snoc
             (fun b => (b_queue_id b, b_exchange_id b, b_routing_key b)));
      [exact Hb|].
    cbn. eapply key_absent; [|exact Hex].
    intros r [= H1 H2 H3]. unfold same_binding. cbn.
    now rewrite H1, H2, H3, !String.eqb_refl.
  - destruct (publish_fst db uuid4 now exchange routing_key body headers priority
                content_type vhost) as [->|[Hex ->]]; [exact Hs|].
    repeat split; cbn; auto.
    apply (NoDup_map_snoc m_id); [exact Hm|]. cbn.
    eapply key_absent; [|exact Hex]. intros r <-. apply String.eqb_refl.
  - destruct (consume_fst db now queue_name n ack) as [->|[q [_ ->]]]; [exact Hs|].
    repeat split; cbn; auto. now rewrite ack_rows_ids.
  - unfold nack. repeat split; cbn; auto.
    now rewrite map_update_where.
  - unfold purge_queue. destruct (select_queue_by_name _ _); [|exact Hs].
    repeat split; cbn; auto. now apply NoDup_map_filter.
  - unfold dead_letter_queue.
    pose proof (declare_queue_schema_ok db uuid4 now dlq_name "/" true false
                  false None Hs) as H1.
    destruct (declare_queue _ _ _ _ _ _ _ _ _) as [db1 [q|ex]]; cbn in H1 |- *;
      [|exact H1].
    destruct (select_queue_by_name db1 queue_name); [|exact H1].
    destruct H1 as (H1ei & H1en & H1qi & H1qn & H1b & H1m).
    repeat split; cbn; auto; now rewrite map_update_where.
Qed.

Lemma reachable_schema_ok db : reachable db -> schema_ok db.
Proof.
  induction 1 as [|db c _ IH _].
  - repeat split; constructor.
  - now apply run_schema_ok.
Qed.

(** Under the constraints a (name, vhost) names at most one queue. *)
Lemma schema_ok_count_queues db name vhost :
  schema_ok db -> (count_queues db name vhost <= 1)%nat.
Proof.
  intros (_ & _ & _ & Hqn & _). unfold count_queues.
  apply (NoDup_key_filter_length (fun q => (q_name q, q_vhost q)) _ (name, vhost));
    [|exact Hqn].
  intros r Hr. apply andb_prop in Hr as [Hn Hv].
  apply String.eqb_eq in Hn, Hv. now subst.
Qed.

Lemma reachable_run_all db cs :
  reachable db -> forallb uuid_ok cs = true -> reachable (run_all db cs).
Proof.
  revert db. induction cs as [|c cs IH]; intros db Hr Hok; [exact Hr|].
  cbn in Hok. apply andb_prop in Hok as [Hc Hcs].
  cbn. apply IH; [|exact Hcs]. now constructor.
Qed.

(** On such databases the count is zero on both sides: no message row names
    a queue, whatever its state. *)
Lemma reachable_queues_empty (db : DB) (q : queue_row) :
  reachable db -> In q (queues db) ->
  q_message_count q = 0%Z /\ filter (in_queue (q_id q)) (messages db) = [].
Proof.
  intros Hr Hin. pose proof (reachable_detached db Hr) as Hd. split.
  - destruct Hd as [_ Hq]. rewrite Forall_forall in Hq. now destruct (Hq q Hin).
  - now apply detached_no_message.
Qed.

(** [get_queue_stats] therefore reports no message at all. *)
Lemma reachable_total_messages (db : DB) (queue_name : option string) :
  reachable db -> stat_total_messages (get_queue_stats db queue_name) = 0%Z.
Proof.
  intros Hr. destruct (reachable_detached db Hr) as [_ Hq].
  assert (forall rows, Forall (fun q => q_message_count q = 0%Z) rows ->
                       zsum (map q_message_count rows) = 0%Z) as Hsum.
  { unfold zsum. induction 1 as [|r rows Hr0 _ IH]; cbn; [reflexivity|].
    rewrite Hr0. exact IH. }
  assert (Forall (fun q => q_message_count q = 0%Z) (queues db)) as Hz.
  { eapply Forall_impl; [|exact Hq]. now intros q [_ ?]. }
  unfold get_queue_stats. cbn. apply Hsum.
  destruct queue_name as [[|c s]|]; auto.
  apply Forall_forall. intros q Hin. apply filter_In in Hin as [Hin _].
  rewrite Forall_forall in Hz. now apply Hz.
Qed.

End Runs.

(** C6 as stated fails.  On a database that holds a message under a queue
    with the count right, an acknowledging [consume], a [nack] and a
    [purge_queue] each leave the count at 1 and no ready message under the
    queue: none of them keeps the equality. *)
Lemma count_invariant_counterexample :
  count_invariant counted_db
  /\ ~ count_invariant (fst (consume counted_db tick "work" 1%Z true))
  /\ ~ count_invariant (fst (nack counted_db tick "m1" true))
  /\ ~ count_invariant (fst (purge_queue counted_db "work")).
Proof.
  split; [intros q [<-|[]]; reflexivity|].
  repeat split; intros H;
    specialize (H (mk_queue_row u_work "work" "/" true false false (Some "{}")
                     1%Z 0%Z 0%Z None) (or_introl eq_refl));
    vm_compute in H; discriminate H.
Qed.

(** ** publish *)

Section Publish.

Context {py : PyBuiltins}.

(** C1, as the code has it: a publish to an existing exchange, with a
    priority that fits 64 bits and a uuid no stored message has, appends
    exactly one message record whatever the bindings of the exchange are; the
    record carries the returned id, an attempt counter of 0 and the empty
    text as queue_id, and no other table changes.  A publish to an exchange
    that does not exist returns the empty text and writes nothing. *)
Theorem publish_creates_one_record (db : DB) (uuid4 : string) (now : Clock)
    (exchange routing_key : string) (body : list Byte.byte)
    (headers : option PyDict) (priority : Z) (content_type vhost : string) :
  (forall e,
      select_exchange db exchange vhost = Some e ->
      fits_int64 priority = true ->
      existsb (fun m => m_id m =? uuid4) (messages db) = false ->
      exists db' row,
        publish db uuid4 now exchange routing_key body headers priority
          content_type vhost = (db', Returned uuid4)
        /\ messages db' = messages db ++ [row]
        /\ created_records db db' = [row]
        /\ m_id row = uuid4
        /\ m_attempts row = 0%Z
        /\ m_queue_id row = EmptyString
        /\ m_routing_key row = routing_key
        /\ m_priority row = priority
        /\ is_ready row = true
        /\ exchanges db' = exchanges db
        /\ queues db' = queues db
        /\ bindings db' = bindings db)
  /\ (select_exchange db exchange vhost = None ->
      publish db uuid4 now exchange routing_key body headers priority
        content_type vhost = (db, Returned EmptyString)).
Proof.
  split.
  - intros e He Hfits Hfresh. unfold publish. rewrite He, Hfits, Hfresh.
    eexists _, _. split; [reflexivity|].
    cbn. repeat split.
    unfold created_records. cbn.
    rewrite skipn_app, skipn_all, Nat.sub_diag. reflexivity.
  - intros He. unfold publish. now rewrite He.
Qed.

(** A publish to an exchange that does not exist returns the empty text and
    writes nothing. *)
Lemma publish_unknown_exchange (db : DB) (uuid4 : string) (now : Clock)
    (exchange routing_key : string) (body : list Byte.byte)
    (headers : option PyDict) (priority : Z) (content_type vhost : string) :
  select_exchange db exchange vhost = None ->
  publish db uuid4 now exchange routing_key body headers priority
    content_type vhost = (db, Returned EmptyString).
Proof. intros He. unfold publish. now rewrite He. Qed.

End Publish.

Lemma publish_creates_one_record_witness :
  (exists db' row,
      publish fanout_db u_msg tick "logs" "k" [] None 0%Z "text/plain" "/"
      = (db', Returned u_msg)
      /\ messages db' = messages fanout_db ++ [row]
      /\ created_records fanout_db db' = [row]
      /\ m_id row = u_msg
      /\ m_attempts row = 0%Z
      /\ m_queue_id row = EmptyString
      /\ m_routing_key row = "k"
      /\ m_priority row = 0%Z
      /\ is_ready row = true
      /\ exchanges db' = exchanges fanout_db
      /\ queues db' = queues fanout_db
      /\ bindings db' = bindings fanout_db)
  /\ publish fanout_db u_msg tick "missing" "k" [] None 0%Z "text/plain" "/"
     = (fanout_db, Returned EmptyString).
Proof.
  split.
  - apply (publish_creates_one_record fanout_db u_msg tick "logs" "k" [] None 0%Z
             "text/plain" "/")
      with (e := mk_exchange_row u_logs "logs" "fanout" "/" true false);
      reflexivity.
  - apply (publish_creates_one_record fanout_db u_msg tick "missing" "k" [] None
             0%Z "text/plain" "/").
    reflexivity.
Defined.

(** C1 as stated fails: the fanout exchange logs has two bound queues, the
    Router of the specification matches both, and the publish creates one
    record, under neither queue. *)
Lemma publish_fanout_counterexample :
  let db' := fst (publish fanout_db u_msg tick "logs" "k" [] None 0%Z
                    "text/plain" "/") in
  spec_route fanout_db "logs" "/" "k" = Some [u_alpha; u_beta]
  /\ map m_queue_id (created_records fanout_db db') = [EmptyString]
  /\ length (created_records fanout_db db') <> length [u_alpha; u_beta].
Proof. vm_compute. repeat split. discriminate. Qed.

(** ** nack and consume *)

Section NackConsume.

Context {py : PyBuiltins}.

Lemma nack_nth db now message_id requeue i m :
  nth_error (messages db) i = Some m ->
  nth_error (messages (fst (nack db now message_id requeue))) i
  = Some (if m_id m =? message_id then set_nacked (now 0) m else m).
Proof.
  intros H. cbn.
  exact (update_where_nth (fun x => m_id x =? message_id) (set_nacked (now 0))
           (messages db) i m H).
Qed.

Lemma nack_keeps_queue db now message_id requeue :
  map m_queue_id (messages (fst (nack db now message_id requeue)))
  = map m_queue_id (messages db).
Proof.
  cbn. unfold update_where. rewrite map_map. apply map_ext.
  intros m. now destruct (m_id m =? message_id).
Qed.

Lemma nack_ignores_requeue db now message_id :
  nack db now message_id true = nack db now message_id false.
Proof. reflexivity. Qed.

Lemma Message_of_row_fields (r : message_row) (x : Message.t PyDict) :
  Message_of_row r = Returned x ->
  Message.id x = m_id r
  /\ Message.queue_id x = m_queue_id r
  /\ Message.routing_key x = m_routing_key r
  /\ Message.body x = m_body r
  /\ Message.priority x = m_priority r
  /\ Message.acked_at x = m_acked_at r
  /\ Message.nacked_at x = m_nacked_at r
  /\ Message.attempts x = m_attempts r.
Proof.
  unfold Message_of_row. destruct (eval_or_empty (m_headers r)); [|discriminate].
  intros [= <-]. now cbn.
Qed.

(** When [consume] returns, either no queue has the name and the list is
    empty, or the count fits 64 bits and the list is made of the rows the
    SELECT fetched from the queue found. *)
Lemma consume_returned db now queue_name n ack ms :
  snd (consume db now queue_name n ack) = Returned ms ->
  (select_queue_by_name db queue_name = None /\ ms = []
   /\ fst (consume db now queue_name n ack) = db)
  \/ (exists q,
         select_queue_by_name db queue_name = Some q
         /\ fits_int64 n = true
         /\ collect (map Message_of_row (select_ready db (q_id q) n)) = Returned ms
         /\ fst (consume db now queue_name n ack)
            = if ack
              then with_messages db
                     (ack_rows now 0 (select_ready db (q_id q) n) (messages db))
              else db).
Proof.
  unfold consume. destruct (select_queue_by_name db queue_name) as [q|].
  - destruct (fits_int64 n); cbn [negb]; [|discriminate].
    destruct (collect _) as [out|e] eqn:Hc; cbn; [|discriminate].
    intros [= <-]. right. exists q. now repeat split.
  - cbn. intros [= <-]. now left.
Qed.

(** A [consume] that raises has written nothing. *)
Lemma consume_raised db now queue_name n ack e :
  snd (consume db now queue_name n ack) = Raised e ->
  fst (consume db now queue_name n ack) = db.
Proof.
  unfold consume. destruct (select_queue_by_name db queue_name) as [q|];
    [|discriminate].
  destruct (negb (fits_int64 n)); [reflexivity|].
  now destruct (collect _).
Qed.

(** [consume] returns when the count fits 64 bits and the headers of the
    ready rows of the queue are texts [eval] accepts. *)
Lemma consume_returns db now queue_name n ack q :
  select_queue_by_name db queue_name = Some q ->
  fits_int64 n = true ->
  Forall (fun r => exists x, Message_of_row r = Returned x)
    (filter (fun m => in_queue (q_id q) m && is_ready m) (messages db)) ->
  exists ms, snd (consume db now queue_name n ack) = Returned ms.
Proof.
  intros Hq Hn Hev. unfold consume. rewrite Hq, Hn. cbn [negb].
  destruct (collect_returns Message_of_row (select_ready db (q_id q) n)) as [ms Hms].
  - unfold select_ready.
    destruct (sql_limit_prefix n
                (filter (fun m => in_queue (q_id q) m && is_ready m) (messages db)))
      as [rest Hrest].
    rewrite Hrest in Hev. now apply Forall_app in Hev as [Hev _].
  - rewrite Hms. cbn. eauto.
Qed.

(** Whatever [consume] returns was read from a ready row of the table. *)
Lemma consume_returns_ready_rows db now queue_name n ack ms x :
  snd (consume db now queue_name n ack) = Returned ms -> In x ms ->
  exists row, In row (messages db) /\ is_ready row = true
              /\ Message_of_row row = Returned x.
Proof.
  intros Hms Hx.
  destruct (consume_returned _ _ _ _ _ _ Hms) as [[_ [-> _]]|[q [_ [_ [Hc _]]]]];
    [destruct Hx|].
  destruct (collect_In _ _ _ _ Hc Hx) as [row [Hrow Hg]].
  exists row. unfold select_ready in Hrow.
  destruct (sql_limit_prefix n
              (filter (fun m => in_queue (q_id q) m && is_ready m) (messages db)))
    as [rest Hrest].
  assert (In row (filter (fun m => in_queue (q_id q) m && is_ready m)
                    (messages db))) as Hin.
  { rewrite Hrest. apply in_or_app. now left. }
  apply filter_In in Hin as [Hin Hb]. apply andb_prop in Hb as [_ Hb].
  now repeat split.
Qed.

(** C2, as the code has it: a nack adds exactly 1 to the attempt counter of
    the message and sets nacked_at, whatever [requeue] is; the message stays
    under its queue and is not ready any more, so that no later [consume]
    returns it. *)
Theorem nack_increments_and_retires (db : DB) (now : Clock)
    (message_id : string) (requeue : bool) :
  let db1 := fst (nack db now message_id requeue) in
  (forall i m,
      nth_error (messages db) i = Some m -> m_id m = message_id ->
      exists m',
        nth_error (messages db1) i = Some m'
        /\ m_id m' = message_id
        /\ m_queue_id m' = m_queue_id m
        /\ m_attempts m' = (m_attempts m + 1)%Z
        /\ m_nacked_at m' = Some (now 0)
        /\ is_ready m' = false)
  /\ (forall now' queue_name n ack ms,
         snd (consume db1 now' queue_name n ack) = Returned ms ->
         forall x, In x ms -> Message.id x <> message_id).
Proof.
  split.
  - intros i m Hi Hid.
    exists (set_nacked (now 0) m). rewrite (nack_nth _ _ _ _ _ _ Hi).
    rewrite Hid, String.eqb_refl. cbn. repeat split; auto.
    unfold is_ready. cbn. apply andb_false_r.
  - intros now' queue_name n ack ms Hms x Hx Hid.
    destruct (consume_returns_ready_rows _ _ _ _ _ _ _ Hms Hx)
      as [row [Hrow [Hready Hx']]].
    apply Message_of_row_fields in Hx' as [Hidx _]. rewrite Hidx in Hid.
    cbn in Hrow. unfold update_where in Hrow.
    apply in_map_iff in Hrow as [m [Hm _]].
    destruct (String.eqb_spec (m_id m) message_id) as [E|E].
    + subst row. unfold is_ready in Hready. cbn in Hready.
      now rewrite andb_false_r in Hready.
    + subst row. contradiction.
Qed.

(** C10: [nack] returns True for every message id; with no stored message
    of that id the database is unchanged; a stored message of that id gets
    nacked_at set and 1 added to its attempt counter; [requeue] makes no
    difference. *)
Theorem nack_always_true (db : DB) (now : Clock) (message_id : string)
    (requeue : bool) :
  snd (nack db now message_id requeue) = Returned true
  /\ ((forall m, In m (messages db) -> m_id m <> message_id) ->
      fst (nack db now message_id requeue) = db)
  /\ (forall i m,
         nth_error (messages db) i = Some m -> m_id m = message_id ->
         exists m',
           nth_error (messages (fst (nack db now message_id requeue))) i = Some m'
           /\ m_nacked_at m' = Some (now 0)
           /\ m_attempts m' = (m_attempts m + 1)%Z)
  /\ nack db now message_id requeue = nack db now message_id (negb requeue).
Proof.
  split; [reflexivity|]. split; [|split; [|reflexivity]].
  - intros Hnone. cbn. rewrite update_where_none; [apply with_messages_same|].
    intros m Hm. apply String.eqb_neq. now apply Hnone.
  - intros i m Hi Hid. exists (set_nacked (now 0) m).
    rewrite (nack_nth _ _ _ _ _ _ Hi), Hid, String.eqb_refl. now cbn.
Qed.

Lemma declare_queue_messages db u now name vhost d e a args :
  messages (fst (declare_queue db u now name vhost d e a args)) = messages db.
Proof.
  unfold declare_queue. destruct (select_queue db name vhost); [reflexivity|].
  now destruct (existsb _ (queues db)).
Qed.

(** Rows of a given id that are not ready stay so through every call that
    does not publish a new message under that id. *)
Lemma run_keeps_retired (message_id : string) db c :
  call_uuid c <> Some message_id ->
  Forall (fun m => m_id m = message_id -> is_ready m = false) (messages db) ->
  Forall (fun m => m_id m = message_id -> is_ready m = false)
    (messages (run db c)).
Proof.
  intros Hu H. destruct c; cbn [run].
  - now rewrite declare_queue_messages.
  - unfold declare_exchange. cbn. now destruct (existsb _ _).
  - unfold bind_queue. destruct (select_queue _ _ _); [|exact H].
    destruct (select_exchange _ _ _); [|exact H].
    cbn. now destruct (existsb _ _).
  - destruct (publish_fst db uuid4 now exchange routing_key body headers priority
                content_type vhost) as [->|[_ ->]]; [exact H|]. cbn.
    apply Forall_app. split; [exact H|].
    constructor; [|constructor]. cbn. intros ->. now elim Hu.
  - destruct (consume_fst db now queue_name n ack) as [->|[q [_ ->]]]; [exact H|].
    cbn. apply ack_rows_Forall; [|exact H]. intros t m _ _. reflexivity.
  - unfold nack. cbn. apply Forall_update_where; [|exact H].
    intros m _ _. unfold is_ready. cbn. apply andb_false_r.
  - unfold purge_queue. destruct (select_queue_by_name _ _); [|exact H].
    cbn. now apply Forall_delete_where.
  - unfold dead_letter_queue.
    pose proof (declare_queue_messages db uuid4 now dlq_name "/" true false
                  false None) as Hm.
    destruct (declare_queue _ _ _ _ _ _ _ _ _) as [db1 [q|ex]]; cbn in Hm |- *;
      [|now rewrite Hm].
    destruct (select_queue_by_name db1 queue_name); cbn; now rewrite Hm.
Qed.

(** X12: after a nack the message is never delivered again, whatever the
    broker is asked to do next (no call publishing under its id): whatever a
    later [consume] returns, on any queue, the message is not in it. *)
Lemma nacked_never_redelivered db now message_id requeue cs now' queue_name n ack ms :
  Forall (fun c => call_uuid c <> Some message_id) cs ->
  snd (consume (run_all (fst (nack db now message_id requeue)) cs)
         now' queue_name n ack) = Returned ms ->
  forall x, In x ms -> Message.id x <> message_id.
Proof.
  intros Hcs Hms.
  assert (Forall (fun m => m_id m = message_id -> is_ready m = false)
            (messages (run_all (fst (nack db now message_id requeue)) cs)))
    as Hretired.
  { clear Hms.
    assert (Forall (fun m => m_id m = message_id -> is_ready m = false)
              (messages (fst (nack db now message_id requeue)))) as H0.
    { cbn. unfold update_where. apply Forall_forall. intros r Hr.
      apply in_map_iff in Hr as [m [<- _]].
      destruct (String.eqb_spec (m_id m) message_id) as [E|E]; [|contradiction].
      intros _. unfold is_ready. cbn. apply andb_false_r. }
    revert H0. generalize (fst (nack db now message_id requeue)).
    induction Hcs as [|c cs Hc _ IH]; intros d Hd; [exact Hd|].
    cbn. apply IH. now apply run_keeps_retired. }
  intros x Hx Hid.
  destruct (consume_returns_ready_rows _ _ _ _ _ _ _ Hms Hx)
    as [row [Hrow [Hready Hx']]].
  apply Message_of_row_fields in Hx' as [Hidx _]. rewrite Hidx in Hid.
  rewrite Forall_forall in Hretired.
  rewrite (Hretired row Hrow Hid) in Hready. discriminate.
Qed.

End NackConsume.

Lemma nack_increments_and_retires_witness :
  let db1 := fst (nack priorities_db tick "m1" true) in
  (exists m',
      nth_error (messages db1) 0 = Some m'
      /\ m_id m' = "m1"
      /\ m_queue_id m' = u_work
      /\ m_attempts m' = 1%Z
      /\ m_nacked_at m' = Some 0%Z
      /\ is_ready m' = false)
  /\ exists ms,
       snd (consume db1 tick "work" 1%Z true) = Returned ms
       /\ map Message.id ms = ["m2"]
       /\ forall x, In x ms -> Message.id x <> "m1".
Proof.
  destruct (nack_increments_and_retires priorities_db tick "m1" true)
    as [Hrow Hconsume].
  split.
  - apply (Hrow 0%nat (stored "m1" u_work 1)); reflexivity.
  - eexists. split; [reflexivity|]. split; [reflexivity|].
    apply (Hconsume tick "work" 1%Z true). reflexivity.
Defined.

Lemma nack_always_true_witness :
  snd (nack one_message_db tick "absent" true) = Returned true
  /\ fst (nack one_message_db tick "absent" true) = one_message_db
  /\ exists m',
       nth_error (messages (fst (nack one_message_db tick "m1" false))) 0 = Some m'
       /\ m_nacked_at m' = Some 0%Z
       /\ m_attempts m' = 1%Z.
Proof.
  split; [apply (nack_always_true one_message_db tick "absent" true)|].
  split.
  - apply (nack_always_true one_message_db tick "absent" true).
    intros m [<-|[]]. discriminate.
  - destruct (nack_always_true one_message_db tick "m1" false)
      as [_ [_ [Hrow _]]].
    apply (Hrow 0%nat (stored "m1" u_work 0)); reflexivity.
Defined.

(** C2 as stated fails: the message of queue work has 0 attempts and is
    returned by [consume]; after a nack with requeue it has 1 attempt and
    [consume] on work returns the empty list, for whatever count it
    returns. *)
Lemma nack_requeue_counterexample :
  let db1 := fst (nack one_message_db tick "m1" true) in
  option_map (map Message.id)
    (returned (snd (consume one_message_db tick "work" 1%Z false)))
  = Some ["m1"]
  /\ map m_attempts (messages db1) = [1%Z]
  /\ snd (consume db1 tick "work" 1%Z false) = Returned []
  /\ forall n ack ms, snd (consume db1 tick "work" n ack) = Returned ms -> ms = [].
Proof.
  split; [reflexivity|]. split; [reflexivity|]. split; [reflexivity|].
  intros n ack ms. unfold consume. cbn.
  destruct (negb (fits_int64 n)); cbn; [discriminate|].
  unfold select_ready. cbn.
  assert (sql_limit n (@nil message_row) = []) as ->.
  { unfold sql_limit. destruct (n <? 0)%Z; [reflexivity | apply firstn_nil]. }
  cbn. destruct ack; now intros [= <-].
Qed.

(** C3 at the failing input: queue work has dead as its dead-letter queue;
    after three nacks with requeue the message has 3 attempts and is still
    under work, and nothing is under dead. *)
Theorem third_nack_not_dead_lettered :
  let db1 := fst (nack dead_letter_db tick "m1" true) in
  let db2 := fst (nack db1 tick "m1" true) in
  let db3 := fst (nack db2 tick "m1" true) in
  option_map q_arguments (select_queue_by_name dead_letter_db "work")
  = Some (Some (dead_letter_arguments "dead"))
  /\ option_map q_id (select_queue_by_name db3 "dead") = Some u_dead
  /\ map (fun m => (m_id m, m_queue_id m, m_routing_key m, m_attempts m))
       (messages db3)
     = [("m1", u_work, "job.run", 3%Z)]
  /\ filter (in_queue u_dead) (messages db3) = []
  /\ get_pending_dlq db3 "dead" = Returned [].
Proof. vm_compute. repeat split. Qed.

(** ** The order of consume, and purge_queue *)

Lemma filter_map_commute {A : Type} (p : A -> bool) (g : A -> A) (l : list A) :
  (forall x, p (g x) = p x) -> filter p (map g l) = map g (filter p l).
Proof.
  intros Hp. induction l as [|x l IH]; cbn; [reflexivity|].
  rewrite Hp. destruct (p x); cbn; now rewrite IH.
Qed.

Lemma filter_delete_where {A : Type} (p : A -> bool) (l : list A) :
  filter p (delete_where p l) = [].
Proof.
  unfold delete_where. induction l as [|x l IH]; cbn; [reflexivity|].
  destruct (p x) eqn:Hx; cbn; [exact IH | now rewrite Hx].
Qed.

Lemma filter_split_length {A : Type} (p r : A -> bool) (l : list A) :
  length (filter p l)
  = (length (filter (fun x => p x && r x) l)
     + length (filter (fun x => p x && negb (r x)) l))%nat.
Proof.
  induction l as [|x l IH]; cbn; [reflexivity|].
  destruct (p x), (r x); cbn; lia.
Qed.

Section ConsumePurge.

Context {py : PyBuiltins}.

Lemma Message_of_row_set_priority (p : Z) (r : message_row) (x : Message.t PyDict) :
  Message_of_row r = Returned x ->
  exists x', Message_of_row (set_priority p r) = Returned x'
             /\ Message.id x' = Message.id x.
Proof.
  unfold Message_of_row. cbn [m_headers set_priority].
  destruct (eval_or_empty (m_headers r)); [|discriminate].
  intros [= <-]. eexists. split; reflexivity.
Qed.

(** C4, as the code has it: when the count fits 64 bits and the stored
    headers evaluate, [consume] returns the first n ready messages of the
    queue of that name with the smallest vhost, in the order of the table,
    which is the order in which the rows were inserted; priorities play no
    part, the same ids come back in the same order whatever priorities the
    rows carry. *)
Theorem consume_in_table_order (db : DB) (now : Clock) (queue_name : string)
    (n : Z) (ack : bool) (q : queue_row) :
  select_queue_by_name db queue_name = Some q ->
  fits_int64 n = true ->
  let ready :=
    filter (fun m => in_queue (q_id q) m && is_ready m) (messages db) in
  Forall (fun r => exists x, Message_of_row r = Returned x) ready ->
  exists ms rows rest,
    snd (consume db now queue_name n ack) = Returned ms
    /\ ready = rows ++ rest
    /\ Forall2 (fun r x => Message_of_row r = Returned x) rows ms
    /\ map Message.id ms = map m_id rows
    /\ map Message.priority ms = map m_priority rows
    /\ length ms
       = (if (n <? 0)%Z then length ready
          else Nat.min (Z.to_nat n) (length ready))
    /\ (forall f, exists ms',
           snd (consume (reprioritized f db) now queue_name n ack) = Returned ms'
           /\ map Message.id ms' = map Message.id ms)
    /\ (forall q', In q' (queues db) -> q_name q' = queue_name ->
                   String.ltb (q_vhost q') (q_vhost q) = false).
Proof.
  intros Hq Hn ready Hev.
  destruct (sql_limit_prefix n ready) as [rest Hrest].
  assert (Forall (fun r => exists x, Message_of_row r = Returned x)
            (select_ready db (q_id q) n)) as Hev'.
  { unfold select_ready. fold ready. rewrite Hrest in Hev.
    now apply Forall_app in Hev as [Hev _]. }
  destruct (collect_returns _ _ Hev') as [ms Hms].
  exists ms, (select_ready db (q_id q) n), rest.
  assert (map Message.id ms = map m_id (select_ready db (q_id q) n)) as Hids.
  { apply (collect_map Message_of_row); [|exact Hms].
    intros a b Hab. now apply Message_of_row_fields in Hab. }
  split; [unfold consume; rewrite Hq, Hn; cbn [negb]; now rewrite Hms|].
  split; [exact Hrest|].
  split; [now apply collect_Forall2|].
  split; [exact Hids|].
  split.
  { apply (collect_map Message_of_row); [|exact Hms].
    intros a b Hab. now apply Message_of_row_fields in Hab. }
  split.
  { rewrite <- (length_map Message.id), Hids, length_map.
    unfold select_ready. fold ready. apply sql_limit_length. }
  split; [|now apply select_queue_by_name_least].
  intros f.
  assert (select_ready (reprioritized f db) (q_id q) n
          = map (fun m => set_priority (f m) m) (select_ready db (q_id q) n))
    as Hrows.
  { unfold select_ready, reprioritized. cbn [messages with_messages].
    rewrite filter_map_commute by reflexivity. apply sql_limit_map. }
  destruct (collect_returns Message_of_row
              (select_ready (reprioritized f db) (q_id q) n)) as [ms' Hms'].
  { rewrite Hrows. apply Forall_forall. intros r Hr.
    apply in_map_iff in Hr as [m [<- Hm]].
    rewrite Forall_forall in Hev'. destruct (Hev' m Hm) as [x Hx].
    destruct (Message_of_row_set_priority (f m) m x Hx) as [x' [Hx' _]]. eauto. }
  exists ms'. split.
  - unfold consume.
    rewrite (select_queue_by_name_same db (reprioritized f db) queue_name eq_refl).
    rewrite Hq, Hn. cbn [negb]. now rewrite Hms'.
  - rewrite Hids.
    rewrite (collect_map Message_of_row Message.id m_id _ _
               (fun a b Hab => proj1 (Message_of_row_fields a b Hab)) Hms').
    rewrite Hrows, map_map. reflexivity.
Qed.

(** C5, as the code has it: [purge_queue] deletes every message row of the
    queue of that name with the smallest vhost, ready or not, and returns
    their number; rows of other queues and the other tables are untouched.
    Without a queue of that name nothing is deleted and 0 is returned. *)
Theorem purge_queue_deletes_all (db : DB) (queue_name : string) :
  (forall q,
      select_queue_by_name db queue_name = Some q ->
      let mine := in_queue (q_id q) in
      exists db',
        purge_queue db queue_name
        = (db', Returned (Z.of_nat (length (filter mine (messages db)))))
        /\ filter mine (messages db') = []
        /\ messages db' = filter (fun m => negb (mine m)) (messages db)
        /\ length (filter mine (messages db))
           = (length (filter (fun m => mine m && is_ready m) (messages db))
              + length (filter (fun m => mine m && negb (is_ready m))
                          (messages db)))%nat
        /\ exchanges db' = exchanges db
        /\ queues db' = queues db
        /\ bindings db' = bindings db
        /\ (forall q', In q' (queues db) -> q_name q' = queue_name ->
                       String.ltb (q_vhost q') (q_vhost q) = false))
  /\ (select_queue_by_name db queue_name = None ->
      purge_queue db queue_name = (db, Returned 0%Z)).
Proof.
  split.
  - intros q Hq mine. unfold purge_queue. rewrite Hq.
    eexists. split; [reflexivity|]. cbn. repeat split.
    + apply filter_delete_where.
    + apply filter_split_length.
    + now apply select_queue_by_name_least.
  - intros Hq. unfold purge_queue. now rewrite Hq.
Qed.

(** Without a queue of that name [consume] returns the empty list and
    writes nothing, whatever the count. *)
Lemma consume_unknown_queue (db : DB) (now : Clock) (queue_name : string)
    (n : Z) (ack : bool) :
  select_queue_by_name db queue_name = None ->
  consume db now queue_name n ack = (db, Returned []).
Proof. intros Hq. unfold consume. now rewrite Hq. Qed.

(** A count outside 64 bits on a stored queue raises and writes nothing. *)
Lemma consume_overflow (db : DB) (now : Clock) (queue_name : string)
    (n : Z) (ack : bool) (q : queue_row) :
  select_queue_by_name db queue_name = Some q ->
  fits_int64 n = false ->
  consume db now queue_name n ack = (db, Raised OverflowError).
Proof. intros Hq Hn. unfold consume. now rewrite Hq, Hn. Qed.

End ConsumePurge.

(** Queue work stored under two vhosts, in the order /z then /a, each with
    one message: the lookups by name take the queue of /a, and so does the
    UPDATE of [dead_letter_queue]. *)
Lemma lookup_takes_smallest_vhost :
  let db :=
    mk_DB []
      [mk_queue_row u_alpha "work" "/z" true false false (Some "{}") 0%Z 0%Z 0%Z None;
       mk_queue_row u_beta "work" "/a" true false false (Some "{}") 0%Z 0%Z 0%Z None]
      [] [stored "mz" u_alpha 0; stored "ma" u_beta 0] in
  option_map q_vhost (select_queue_by_name db "work") = Some "/a"
  /\ option_map (map Message.id) (returned (snd (consume db tick "work" 5%Z true)))
     = Some ["ma"]
  /\ map m_id (messages (fst (purge_queue db "work"))) = ["mz"]
  /\ map (fun q => (q_vhost q, q_arguments q))
       (queues (fst (dead_letter_queue db u_dead tick "work" "dead")))
     = [("/z", Some "{}"); ("/a", Some (dead_letter_arguments "dead"));
        ("/", Some "{}")].
Proof. vm_compute. repeat split. Qed.

Lemma consume_in_table_order_witness :
  exists ms rows rest,
    snd (consume priorities_db tick "work" 2%Z true) = Returned ms
    /\ filter (fun m => in_queue u_work m && is_ready m) (messages priorities_db)
       = rows ++ rest
    /\ Forall2 (fun r x => Message_of_row r = Returned x) rows ms
    /\ map Message.id ms = map m_id rows
    /\ map Message.priority ms = map m_priority rows
    /\ length ms = 2%nat
    /\ (forall f, exists ms',
           snd (consume (reprioritized f priorities_db) tick "work" 2%Z true)
           = Returned ms'
           /\ map Message.id ms' = map Message.id ms)
    /\ (forall q', In q' (queues priorities_db) -> q_name q' = "work" ->
                   String.ltb (q_vhost q') "/" = false).
Proof.
  apply (consume_in_table_order priorities_db tick "work" 2%Z true work_queue).
  - reflexivity.
  - reflexivity.
  - repeat constructor; eexists; reflexivity.
Defined.

(** C4 as stated fails: with priorities 1, 5, 3 stored in that order,
    [consume] of three messages returns them as 1, 5, 3. *)
Lemma consume_priority_counterexample :
  exists ms,
    snd (consume priorities_db tick "work" 3%Z true) = Returned ms
    /\ map Message.priority ms = [1%Z; 5%Z; 3%Z]
    /\ map Message.priority ms <> [5%Z; 3%Z; 1%Z].
Proof.
  eexists. split; [reflexivity|]. split; [reflexivity | discriminate].
Qed.

Lemma purge_queue_deletes_all_witness :
  (exists db',
      purge_queue seven_db "work" = (db', Returned 7%Z)
      /\ filter (in_queue u_work) (messages db') = []
      /\ messages db' = filter (fun m => negb (in_queue u_work m)) (messages seven_db)
      /\ length (filter (in_queue u_work) (messages seven_db))
         = (length (filter (fun m => in_queue u_work m && is_ready m)
                      (messages seven_db))
            + length (filter (fun m => in_queue u_work m && negb (is_ready m))
                        (messages seven_db)))%nat
      /\ exchanges db' = exchanges seven_db
      /\ queues db' = queues seven_db
      /\ bindings db' = bindings seven_db
      /\ (forall q', In q' (queues seven_db) -> q_name q' = "work" ->
                     String.ltb (q_vhost q') "/" = false))
  /\ purge_queue seven_db "idle" = (seven_db, Returned 0%Z).
Proof.
  split.
  - apply (purge_queue_deletes_all seven_db "work") with (q := work_queue).
    reflexivity.
  - apply (purge_queue_deletes_all seven_db "idle"). reflexivity.
Defined.

(** C5 as stated fails: of the seven messages of queue work two have been
    delivered without acknowledgement and five are waiting; [purge_queue]
    returns 7 and leaves no message. *)
Lemma purge_unacked_counterexample :
  let delivered := snd (consume seven_db tick "work" 2%Z false) in
  let db1 := fst (consume seven_db tick "work" 2%Z false) in
  option_map (map Message.id) (returned delivered) = Some ["m1"; "m2"]
  /\ length (messages db1) = 7%nat
  /\ snd (purge_queue db1 "work") = Returned 7%Z
  /\ Returned 7%Z <> Returned 5%Z
  /\ messages (fst (purge_queue db1 "work")) = [].
Proof. vm_compute. repeat split. discriminate. Qed.

(** ** The declarations *)

Section Declarations.

Context {py : PyBuiltins}.

(** C7, as the code has it: declaring an exchange whose (name, vhost) is
    already stored never fails, whether the type agrees or not; the stored
    exchange keeps its id and its type, no row is added, and the call
    returns an Exchange with the parameters of the call. *)
Theorem declare_exchange_first_wins (db : DB) (uuid4 : string)
    (name type vhost : string) (durable auto_delete : bool) (e : exchange_row) :
  select_exchange db name vhost = Some e ->
  exists x,
    declare_exchange db uuid4 name type vhost durable auto_delete
    = (db, Returned x)
    /\ Exchange.name x = name
    /\ Exchange.type x = type
    /\ Exchange.vhost x = vhost
    /\ Exchange.durable x = durable
    /\ Exchange.auto_delete x = auto_delete.
Proof.
  intros He. unfold declare_exchange.
  assert (existsb (fun r => (ex_id r =? uuid4)
                            || ((ex_name r =? name) && (ex_vhost r =? vhost)))
            (exchanges db) = true) as ->.
  { unfold select_exchange in He. apply find_some in He as [Hin Hb].
    apply existsb_exists. exists e. split; [exact Hin|].
    rewrite Hb. apply orb_true_r. }
  eexists. split; [reflexivity|]. now cbn.
Qed.

(** The first declaration of a (name, vhost) stores the exchange under the
    uuid drawn. *)
Lemma declare_exchange_new (db : DB) (uuid4 : string)
    (name type vhost : string) (durable auto_delete : bool) :
  select_exchange db name vhost = None ->
  existsb (fun r => ex_id r =? uuid4) (exchanges db) = false ->
  select_exchange
    (fst (declare_exchange db uuid4 name type vhost durable auto_delete))
    name vhost
  = Some (mk_exchange_row uuid4 name type vhost durable auto_delete).
Proof.
  intros He Hid. unfold declare_exchange.
  assert (existsb (fun r => (ex_id r =? uuid4)
                            || ((ex_name r =? name) && (ex_vhost r =? vhost)))
            (exchanges db) = false) as ->.
  { unfold select_exchange in He.
    induction (exchanges db) as [|r t IH]; [reflexivity|].
    cbn in He, Hid |- *. apply orb_false_elim in Hid as [Hr Ht].
    rewrite Hr. cbn.
    destruct ((ex_name r =? name) && (ex_vhost r =? vhost)); [discriminate|].
    cbn. now apply IH. }
  unfold select_exchange in *. cbn.
  rewrite (find_app_none _ _ _ He). cbn. now rewrite !String.eqb_refl.
Qed.

(** C8: declaring a queue a second time with the same parameters returns
    the id the first declaration returned and leaves the database as the
    first declaration left it; a (name, vhost) stored at most once before is
    stored exactly once after. *)
Theorem declare_queue_idempotent (db db1 : DB) (u1 u2 : string)
    (now1 now2 : Clock) (name vhost : string)
    (durable exclusive auto_delete : bool) (arguments : option PyDict)
    (q1 : Queue.t PyDict) :
  declare_queue db u1 now1 name vhost durable exclusive auto_delete arguments
  = (db1, Returned q1) ->
  exists q2,
    declare_queue db1 u2 now2 name vhost durable exclusive auto_delete arguments
    = (db1, Returned q2)
    /\ Queue.id q2 = Queue.id q1
    /\ Queue.name q2 = Queue.name q1
    /\ Queue.vhost q2 = Queue.vhost q1
    /\ Queue.arguments q2 = Queue.arguments q1
    /\ count_queues db1 name vhost = Nat.max 1 (count_queues db name vhost).
Proof.
  unfold declare_queue, count_queues.
  destruct (select_queue db name vhost) as [r|] eqn:Hsel.
  - intros [= <- <-]. rewrite Hsel.
    eexists. split; [reflexivity|]. cbn. repeat split.
    unfold select_queue in Hsel. apply find_some in Hsel as [Hin Hb].
    assert (In r (filter (fun q => (q_name q =? name) && (q_vhost q =? vhost))
                    (queues db))) as Hf by now apply filter_In.
    destruct (filter _ (queues db)); [destruct Hf | cbn; lia].
  - destruct (existsb _ (queues db)); [discriminate|].
    intros [= <- <-].
    unfold select_queue in *. cbn.
    rewrite (find_app_none _ _ _ Hsel). cbn. rewrite !String.eqb_refl. cbn.
    eexists. split; [reflexivity|]. cbn. repeat split.
    rewrite filter_app, (find_none_filter _ _ Hsel). cbn.
    now rewrite !String.eqb_refl.
Qed.


End Declarations.

Lemma declare_exchange_first_wins_witness :
  exists x,
    declare_exchange logs_db u_other "logs" "direct" "/" true false
    = (logs_db, Returned x)
    /\ Exchange.name x = "logs"
    /\ Exchange.type x = "direct"
    /\ Exchange.vhost x = "/"
    /\ Exchange.durable x = true
    /\ Exchange.auto_delete x = false.
Proof.
  apply (declare_exchange_first_wins logs_db u_other "logs" "direct" "/" true
           false (mk_exchange_row u_logs "logs" "fanout" "/" true false)).
  reflexivity.
Defined.

(** C7 as stated fails: exchange logs is stored with type fanout; declaring
    it with type direct returns an Exchange and raises nothing, and
    declaring it again as it is returns an id that is not the stored one. *)
Lemma declare_exchange_conflict_counterexample :
  option_map (fun e => (ex_id e, ex_type e)) (select_exchange logs_db "logs" "/")
  = Some (u_logs, "fanout")
  /\ (exists x,
         snd (declare_exchange logs_db u_other "logs" "direct" "/" true false)
         = Returned x
         /\ Exchange.type x = "direct")
  /\ (exists x,
         snd (declare_exchange logs_db u_other "logs" "fanout" "/" true false)
         = Returned x
         /\ Exchange.id x = u_other
         /\ Exchange.id x <> u_logs).
Proof.
  split; [reflexivity|]. split.
  - eexists. split; reflexivity.
  - eexists. split; [reflexivity|]. split; [reflexivity | discriminate].
Qed.

Lemma declare_queue_idempotent_witness :
  exists q2,
    declare_queue
      (fst (declare_queue empty_db u_alpha tick "alpha" "/" true false false None))
      u_beta tick "alpha" "/" true false false None
    = (fst (declare_queue empty_db u_alpha tick "alpha" "/" true false false None),
       Returned q2)
    /\ Queue.id q2 = u_alpha
    /\ Queue.name q2 = "alpha"
    /\ Queue.vhost q2 = "/"
    /\ Queue.arguments q2 = "{}"
    /\ count_queues
         (fst (declare_queue empty_db u_alpha tick "alpha" "/" true false false
                 None)) "alpha" "/" = 1%nat.
Proof.
  exact (declare_queue_idempotent empty_db
           (fst (declare_queue empty_db u_alpha tick "alpha" "/" true false false
                   None))
           u_alpha u_beta tick tick "alpha" "/" true false false None
           (Queue.mk u_alpha "alpha" "/" true false false
              (empty_dict : PyDict) 0%Z 0%Z 1%Z None)
           eq_refl).
Defined.

(** ** dead_letter_queue *)

Lemma find_app_is_none {R : Type} (p : R -> bool) (t t' : list R) :
  find p (t ++ t') = None -> find p t = None.
Proof.
  induction t as [|r t IH]; cbn; [reflexivity|].
  destruct (p r); [discriminate | exact IH].
Qed.

Section DeadLetter.

Context {py : PyBuiltins}.


End DeadLetter.



(** ** Further properties of the methods *)

Lemma update_where_idem {R : Type} (p : R -> bool) (f : R -> R) (t : list R) :
  (forall r, p (f r) = p r) -> (forall r, f (f r) = f r) ->
  update_where p f (update_where p f t) = update_where p f t.
Proof.
  intros Hp Hf. unfold update_where. rewrite map_map. apply map_ext.
  intros r. destruct (p r) eqn:E; [rewrite Hp, E; apply Hf | now rewrite E].
Qed.

Lemma delete_where_none {R : Type} (p : R -> bool) (t : list R) :
  filter p t = [] -> delete_where p t = t.
Proof.
  unfold delete_where. induction t as [|r t IH]; cbn; [reflexivity|].
  destruct (p r); cbn; [discriminate|]. intros H. f_equal. now apply IH.
Qed.

Lemma filter_and_nil {R : Type} (p r : R -> bool) (t : list R) :
  filter p t = [] -> filter (fun x => p x && r x) t = [].
Proof.
  induction t as [|x t IH]; cbn; [reflexivity|].
  destruct (p x); cbn; [discriminate | exact IH].
Qed.

Lemma zsum_app (l l' : list Z) : zsum (l ++ l') = (zsum l + zsum l')%Z.
Proof.
  unfold zsum. induction l as [|x l IH]; cbn [app fold_right]; [reflexivity|].
  rewrite IH. apply Z.add_assoc.
Qed.

Lemma zsum_zero {R : Type} (cnt : R -> Z) (l : list R) :
  Forall (fun r => cnt r = 0%Z) l -> zsum (map cnt l) = 0%Z.
Proof.
  unfold zsum. induction 1 as [|r l Hr _ IH]; cbn [map fold_right]; [reflexivity|].
  now rewrite Hr, IH.
Qed.

Lemma Forall_filter_keep {R : Type} (P : R -> Prop) (p : R -> bool) (l : list R) :
  Forall P l -> Forall P (filter p l).
Proof.
  intros H. apply Forall_forall. intros r Hr. apply filter_In in Hr as [Hr _].
  rewrite Forall_forall in H. now apply H.
Qed.

Section Unrouted.

Context {py : PyBuiltins}.

Lemma reachable_queue_rows (db : DB) (name : string) (q : queue_row) :
  reachable db -> select_queue_by_name db name = Some q ->
  filter (in_queue (q_id q)) (messages db) = [].
Proof.
  intros Hr Hq. apply detached_no_message; [now apply reachable_detached|].
  now apply select_queue_by_name_In in Hq as [Hin _].
Qed.

(** X1: on a database the broker has produced itself, [consume] delivers
    nothing and writes nothing, for every queue name and ack flag: with a
    count that fits 64 bits it returns the empty list, and for any count
    whatever it returns is the empty list and the database is as before: no
    published message is ever delivered. *)
Theorem broker_never_delivers (db : DB) (now : Clock) (queue_name : string)
    (n : Z) (ack : bool) :
  reachable db ->
  (fits_int64 n = true -> consume db now queue_name n ack = (db, Returned []))
  /\ (forall ms, snd (consume db now queue_name n ack) = Returned ms -> ms = [])
  /\ fst (consume db now queue_name n ack) = db.
Proof.
  intros Hr.
  assert (forall q, select_queue_by_name db queue_name = Some q ->
                    select_ready db (q_id q) n = []) as Hnone.
  { intros q Hq. unfold select_ready.
    rewrite (filter_and_nil _ is_ready _
               (reachable_queue_rows db queue_name q Hr Hq)).
    unfold sql_limit. destruct (n <? 0)%Z; [reflexivity | apply firstn_nil]. }
  unfold consume.
  destruct (select_queue_by_name db queue_name) as [q|] eqn:Hq.
  - rewrite (Hnone q eq_refl). cbn [map collect ack_rows].
    rewrite with_messages_same.
    destruct (fits_int64 n); cbn [negb fst snd].
    + repeat split; [now destruct ack | now intros ms [= <-] | now destruct ack].
    + repeat split; [discriminate | discriminate].
  - repeat split. now intros ms [= <-].
Qed.

(** X2: on a database the broker has produced itself, [purge_queue] returns
    0 for every queue name and deletes nothing. *)
Theorem broker_purge_finds_nothing (db : DB) (queue_name : string) :
  reachable db -> purge_queue db queue_name = (db, Returned 0%Z).
Proof.
  intros Hr. unfold purge_queue.
  destruct (select_queue_by_name db queue_name) as [q|] eqn:Hq; [|reflexivity].
  pose proof (reachable_queue_rows db queue_name q Hr Hq) as Hnone.
  unfold rowcount. rewrite Hnone, (delete_where_none _ _ Hnone). cbn.
  now rewrite with_messages_same.
Qed.

(** X3: on a database the broker has produced itself, [get_pending_dlq]
    returns the empty list for every name, however often messages were
    nacked. *)
Theorem broker_dlq_always_empty (db : DB) (dlq_name : string) :
  reachable db -> get_pending_dlq db dlq_name = Returned [].
Proof.
  intros Hr. unfold get_pending_dlq.
  destruct (select_queue_by_name db dlq_name) as [q|] eqn:Hq; [|reflexivity].
  now rewrite (filter_and_nil _ (fun m => (3 <=? m_attempts m)%Z) _
                 (reachable_queue_rows db dlq_name q Hr Hq)).
Qed.

End Unrouted.

Lemma reachable_example :
  reachable
    (run_all empty_db
       (fanout_calls
        ++ [Publish u_msg tick "logs" "k" [] None 0%Z "text/plain" "/";
            Nack tick u_msg true; Nack tick u_msg true; Nack tick u_msg true;
            DeadLetterQueue u_dead tick "alpha" "dead"])).
Proof. apply reachable_run_all; [apply reach_init | reflexivity]. Qed.

Lemma broker_never_delivers_witness :
  consume
    (run_all empty_db
       (fanout_calls
        ++ [Publish u_msg tick "logs" "k" [] None 0%Z "text/plain" "/";
            Nack tick u_msg true; Nack tick u_msg true; Nack tick u_msg true;
            DeadLetterQueue u_dead tick "alpha" "dead"]))
    tick "alpha" 10%Z true
  = (run_all empty_db
       (fanout_calls
        ++ [Publish u_msg tick "logs" "k" [] None 0%Z "text/plain" "/";
            Nack tick u_msg true; Nack tick u_msg true; Nack tick u_msg true;
            DeadLetterQueue u_dead tick "alpha" "dead"]),
     Returned []).
Proof.
  apply (broker_never_delivers _ tick "alpha" 10%Z true reachable_example).
  reflexivity.
Defined.

Lemma broker_purge_finds_nothing_witness :
  purge_queue
    (run_all empty_db
       (fanout_calls
        ++ [Publish u_msg tick "logs" "k" [] None 0%Z "text/plain" "/";
            Nack tick u_msg true; Nack tick u_msg true; Nack tick u_msg true;
            DeadLetterQueue u_dead tick "alpha" "dead"]))
    "beta"
  = (run_all empty_db
       (fanout_calls
        ++ [Publish u_msg tick "logs" "k" [] None 0%Z "text/plain" "/";
            Nack tick u_msg true; Nack tick u_msg true; Nack tick u_msg true;
            DeadLetterQueue u_dead tick "alpha" "dead"]),
     Returned 0%Z).
Proof. apply broker_purge_finds_nothing. exact reachable_example. Defined.

Lemma broker_dlq_always_empty_witness :
  get_pending_dlq
    (run_all empty_db
       (fanout_calls
        ++ [Publish u_msg tick "logs" "k" [] None 0%Z "text/plain" "/";
            Nack tick u_msg true; Nack tick u_msg true; Nack tick u_msg true;
            DeadLetterQueue u_dead tick "alpha" "dead"]))
    "dead"
  = Returned [].
Proof. apply broker_dlq_always_empty. exact reachable_example. Defined.

(** ** What the tables keep through every call *)

Section Tables.

Context {py : PyBuiltins}.

Lemma declare_queue_queues db u now name vhost d e a args :
  exists added,
    queues (fst (declare_queue db u now name vhost d e a args))
    = queues db ++ added
    /\ Forall (fun r => q_message_count r = 0%Z /\ q_consumer_count r = 0%Z) added.
Proof.
  unfold declare_queue. destruct (select_queue db name vhost).
  - exists []. now rewrite app_nil_r.
  - destruct (existsb _ (queues db)).
    + exists []. now rewrite app_nil_r.
    + eexists. split; [reflexivity|]. now repeat constructor.
Qed.

Lemma declare_queue_others db u now name vhost d e a args :
  exchanges (fst (declare_queue db u now name vhost d e a args)) = exchanges db
  /\ bindings (fst (declare_queue db u now name vhost d e a args)) = bindings db.
Proof.
  unfold declare_queue. destruct (select_queue db name vhost); [now split|].
  now destruct (existsb _ (queues db)).
Qed.

(** The queues table after a call: the rows of before, in place, with their
    id, name, vhost and counters, followed by the rows the call created, whose
    counters are zero. *)
Lemma run_queues db c :
  exists f added,
    queues (run db c) = map f (queues db) ++ added
    /\ (forall r, q_id (f r) = q_id r /\ q_name (f r) = q_name r
                  /\ q_vhost (f r) = q_vhost r
                  /\ q_message_count (f r) = q_message_count r
                  /\ q_consumer_count (f r) = q_consumer_count r)
    /\ Forall (fun r => q_message_count r = 0%Z /\ q_consumer_count r = 0%Z) added.
Proof.
  assert (forall db', queues db' = queues db ->
            exists f added,
              queues db' = map f (queues db) ++ added
              /\ (forall r, q_id (f r) = q_id r /\ q_name (f r) = q_name r
                            /\ q_vhost (f r) = q_vhost r
                            /\ q_message_count (f r) = q_message_count r
                            /\ q_consumer_count (f r) = q_consumer_count r)
              /\ Forall (fun r => q_message_count r = 0%Z
                                  /\ q_consumer_count r = 0%Z) added) as Hsame.
  { intros db' ->. exists (fun r => r), []. rewrite map_id, app_nil_r.
    now repeat split. }
  destruct c; cbn [run].
  - destruct (declare_queue_queues db uuid4 now name vhost durable exclusive
                auto_delete arguments) as [added [-> Hz]].
    exists (fun r => r), added. rewrite map_id. now repeat split.
  - apply Hsame. unfold declare_exchange. cbn. now destruct (existsb _ _).
  - apply Hsame. unfold bind_queue. destruct (select_queue _ _ _); [|reflexivity].
    destruct (select_exchange _ _ _); [|reflexivity].
    cbn. now destruct (existsb _ _).
  - apply Hsame. destruct (publish_fst db uuid4 now exchange routing_key body headers
                              priority content_type vhost) as [->|[_ ->]]; reflexivity.
  - apply Hsame. destruct (consume_fst db now queue_name n ack) as [->|[q0 [_ ->]]]; reflexivity.
  - apply Hsame. reflexivity.
  - apply Hsame. unfold purge_queue. now destruct (select_queue_by_name _ _).
  - unfold dead_letter_queue.
    destruct (declare_queue_queues db uuid4 now dlq_name "/" true false false
                None) as [added [Hq Hz]].
    destruct (declare_queue _ _ _ _ _ _ _ _ _) as [db1 [q|ex]]; cbn in Hq |- *.
    + destruct (select_queue_by_name db1 queue_name) as [s|]; cbn.
      * rewrite Hq. unfold update_where. rewrite map_app.
        eexists _, _. split; [reflexivity|]. split.
        -- intros r. now destruct (q_id r =? q_id s).
        -- apply Forall_forall. intros r Hr. apply in_map_iff in Hr as [x [<- Hx]].
           rewrite Forall_forall in Hz. specialize (Hz x Hx).
           now destruct (q_id x =? q_id s).
      * exists (fun r => r), added. rewrite map_id. now repeat split.
    + exists (fun r => r), added. rewrite map_id. now repeat split.
Qed.

Lemma run_exchanges db c : exists added, exchanges (run db c) = exchanges db ++ added.
Proof.
  assert (forall db', exchanges db' = exchanges db ->
                      exists added, exchanges db' = exchanges db ++ added) as Hsame.
  { intros db' ->. exists []. now rewrite app_nil_r. }
  destruct c; cbn [run].
  - apply Hsame. apply declare_queue_others.
  - unfold declare_exchange. cbn. destruct (existsb _ _); [now apply Hsame|].
    cbn. eauto.
  - apply Hsame. unfold bind_queue. destruct (select_queue _ _ _); [|reflexivity].
    destruct (select_exchange _ _ _); [|reflexivity].
    cbn. now destruct (existsb _ _).
  - apply Hsame. destruct (publish_fst db uuid4 now exchange routing_key body headers
                              priority content_type vhost) as [->|[_ ->]]; reflexivity.
  - apply Hsame. destruct (consume_fst db now queue_name n ack) as [->|[q0 [_ ->]]]; reflexivity.
  - apply Hsame. reflexivity.
  - apply Hsame. unfold purge_queue. now destruct (select_queue_by_name _ _).
  - apply Hsame. unfold dead_letter_queue.
    pose proof (declare_queue_others db uuid4 now dlq_name "/" true false false
                  None) as [He _].
    destruct (declare_queue _ _ _ _ _ _ _ _ _) as [db1 [q|ex]]; cbn in He |- *;
      [|exact He].
    now destruct (select_queue_by_name db1 queue_name).
Qed.

(** A binding after a call was there before or joins a queue and an exchange
    found in the tables under the vhost of the call. *)
Lemma run_bindings db c b :
  In b (bindings (run db c)) ->
  In b (bindings db)
  \/ ((exists q, In q (queues db) /\ q_id q = b_queue_id b /\ q_vhost q = b_vhost b)
      /\ (exists e, In e (exchanges db) /\ ex_id e = b_exchange_id b
                    /\ ex_vhost e = b_vhost b)).
Proof.
  destruct c; cbn [run].
  - destruct (declare_queue_others db uuid4 now name vhost durable exclusive
                auto_delete arguments) as [_ ->]. now left.
  - unfold declare_exchange. cbn. destruct (existsb _ _); now left.
  - unfold bind_queue.
    destruct (select_queue db queue_name vhost) as [q|] eqn:Hq; [|now left].
    destruct (select_exchange db exchange_name vhost) as [e|] eqn:He; [|now left].
    cbn. destruct (existsb _ _); [now left|]. cbn.
    intros Hin. apply in_app_or in Hin as [Hin|[<-|[]]]; [now left|right].
    unfold select_queue in Hq. apply find_some in Hq as [Hqin Hqb].
    unfold select_exchange in He. apply find_some in He as [Hein Heb].
    apply andb_prop in Hqb as [_ Hqv]. apply andb_prop in Heb as [_ Hev].
    apply String.eqb_eq in Hqv, Hev. cbn. split; eauto.
  - destruct (publish_fst db uuid4 now exchange routing_key body headers
                              priority content_type vhost) as [->|[_ ->]]; now left.
  - destruct (consume_fst db now queue_name n ack) as [->|[q0 [_ ->]]]; now left.
  - now left.
  - unfold purge_queue. destruct (select_queue_by_name _ _); now left.
  - unfold dead_letter_queue.
    pose proof (declare_queue_others db uuid4 now dlq_name "/" true false false
                  None) as [_ Hb].
    destruct (declare_queue _ _ _ _ _ _ _ _ _) as [db1 [q|ex]]; cbn in Hb |- *.
    + destruct (select_queue_by_name db1 queue_name); cbn; rewrite Hb; now left.
    + rewrite Hb. now left.
Qed.

Lemma run_bindings_resolve db c : bindings_resolve db -> bindings_resolve (run db c).
Proof.
  intros H b Hb.
  destruct (run_queues db c) as [f [addedq [Hq [Hf _]]]].
  destruct (run_exchanges db c) as [addede He].
  assert ((exists q, In q (queues db) /\ q_id q = b_queue_id b
                     /\ q_vhost q = b_vhost b)
          /\ (exists e, In e (exchanges db) /\ ex_id e = b_exchange_id b
                        /\ ex_vhost e = b_vhost b)) as [[q [Hqin [Hqi Hqv]]] [e [Hein Hee]]].
  { destruct (run_bindings db c b Hb) as [Hold|Hnew]; [now apply H | exact Hnew]. }
  split.
  - exists (f q). rewrite Hq. split; [apply in_or_app; left; now apply in_map|].
    destruct (Hf q) as (-> & _ & -> & _). now split.
  - exists e. rewrite He. split; [apply in_or_app; now left | exact Hee].
Qed.

(** X4: whatever calls are made, a database that satisfies the PRIMARY KEY
    and UNIQUE constraints of the four tables still satisfies them: ids stay
    unique and no (name, vhost) or binding is stored twice. *)
Theorem constraints_kept (db : DB) (cs : list call) :
  schema_ok db -> schema_ok (run_all db cs).
Proof.
  revert db. induction cs as [|c cs IH]; intros db H; [exact H|].
  cbn. apply IH. now apply run_schema_ok.
Qed.

(** X5: bindings never dangle: if every binding names a stored queue and a
    stored exchange of its vhost, this is still so after any calls, since no
    method deletes a queue or an exchange or changes an id or a vhost. *)
Theorem bindings_never_dangle (db : DB) (cs : list call) :
  bindings_resolve db -> bindings_resolve (run_all db cs).
Proof.
  revert db. induction cs as [|c cs IH]; intros db H; [exact H|].
  cbn. apply IH. now apply run_bindings_resolve.
Qed.

(** X6: no call changes the totals [get_queue_stats] reports: the sums of
    message_count and consumer_count, for one queue name or for all, are
    after every call what they were before, and the number of queues
    reported never goes down. *)
Theorem stats_totals_never_change (db : DB) (c : call) (queue_name : option string) :
  stat_total_messages (get_queue_stats (run db c) queue_name)
  = stat_total_messages (get_queue_stats db queue_name)
  /\ stat_total_consumers (get_queue_stats (run db c) queue_name)
     = stat_total_consumers (get_queue_stats db queue_name)
  /\ (stat_queues (get_queue_stats db queue_name)
      <= stat_queues (get_queue_stats (run db c) queue_name))%Z.
Proof.
  destruct (run_queues db c) as [f [added [Hq [Hf Hz]]]].
  assert (forall p : queue_row -> bool,
             (forall r, p (f r) = p r) ->
             zsum (map q_message_count (filter p (queues (run db c))))
             = zsum (map q_message_count (filter p (queues db)))
             /\ zsum (map q_consumer_count (filter p (queues (run db c))))
                = zsum (map q_consumer_count (filter p (queues db)))
             /\ (Z.of_nat (length (filter p (queues db)))
                 <= Z.of_nat (length (filter p (queues (run db c)))))%Z) as Hp.
  { intros p Hpf. rewrite Hq, filter_app, !map_app, !zsum_app, length_app.
    rewrite (filter_map_commute p f (queues db) Hpf), !map_map, length_map.
    rewrite (zsum_zero q_message_count (filter p added)),
            (zsum_zero q_consumer_count (filter p added)).
    - rewrite !Z.add_0_r. repeat split; [| |lia].
      + f_equal. apply map_ext. intros r. now destruct (Hf r) as (_ & _ & _ & ? & _).
      + f_equal. apply map_ext. intros r. now destruct (Hf r) as (_ & _ & _ & _ & ?).
    - apply Forall_filter_keep. eapply Forall_impl; [|exact Hz]. now intros r [_ ?].
    - apply Forall_filter_keep. eapply Forall_impl; [|exact Hz]. now intros r [? _]. }
  assert (forall l : list queue_row, filter (fun _ => true) l = l) as Hall.
  { induction l as [|x l IH]; cbn; [reflexivity | now rewrite IH]. }
  unfold get_queue_stats. cbn [stat_total_messages stat_total_consumers stat_queues].
  destruct queue_name as [[|ch s]|].
  - specialize (Hp (fun _ => true) (fun _ => eq_refl)). now rewrite !Hall in Hp.
  - apply Hp. intros r. now destruct (Hf r) as (_ & -> & _).
  - specialize (Hp (fun _ => true) (fun _ => eq_refl)). now rewrite !Hall in Hp.
Qed.

(** C6, as the code has it: no call writes the message_count column.  Every
    call leaves the stored queues in place with their ids and their message
    counts, whatever it does to the messages, and a queue it adds has
    message count 0; and in every state the broker reaches from the empty
    database every queue has message count 0 and no message at all is stored
    under its id, so that the count equals the number of ready or
    unacknowledged messages of the queue only because both are 0. *)
Theorem message_count_never_written (db : DB) (c : call) :
  (exists f added,
      queues (run db c) = map f (queues db) ++ added
      /\ (forall r, q_id (f r) = q_id r
                    /\ q_message_count (f r) = q_message_count r)
      /\ Forall (fun r => q_message_count r = 0%Z) added)
  /\ (reachable db ->
      forall q, In q (queues db) ->
        q_message_count q = 0%Z
        /\ filter (in_queue (q_id q)) (messages db) = []
        /\ pending_count db (q_id q) = 0%Z).
Proof.
  split.
  - destruct (run_queues db c) as [g [added [Hq [Hg Hz]]]].
    exists g, added. split; [exact Hq|]. split.
    + intros r. now destruct (Hg r) as (? & _ & _ & ? & _).
    + eapply Forall_impl; [|exact Hz]. now intros r [? _].
  - intros Hr q Hin.
    destruct (reachable_queues_empty db q Hr Hin) as [Hzero Hnone].
    split; [exact Hzero|]. split; [exact Hnone|].
    rewrite <- Hzero. symmetry.
    now apply (detached_count_invariant db (reachable_detached db Hr)).
Qed.

End Tables.

Lemma constraints_kept_witness :
  schema_ok
    (run_all empty_db
       (fanout_calls
        ++ [Publish u_msg tick "logs" "k" [] None 0%Z "text/plain" "/";
            DeclareQueue u_alpha tick "gamma" "/" true false false None;
            BindQueue "alpha" "logs" "any" "/"])).
Proof.
  apply constraints_kept. repeat split; constructor.
Defined.

Lemma bindings_never_dangle_witness : bindings_resolve fanout_db.
Proof.
  apply (bindings_never_dangle empty_db fanout_calls). intros b [].
Defined.

Lemma message_count_never_written_witness :
  q_message_count
    (mk_queue_row u_alpha "alpha" "/" true false false (Some "{}") 0%Z 0%Z 0%Z None)
  = 0%Z
  /\ filter (in_queue u_alpha)
       (messages
          (run fanout_db (Publish u_msg tick "logs" "k" [] None 5%Z "text/plain" "/")))
     = []
  /\ pending_count
       (run fanout_db (Publish u_msg tick "logs" "k" [] None 5%Z "text/plain" "/"))
       u_alpha
     = 0%Z.
Proof.
  apply (proj2 (message_count_never_written
                  (run fanout_db
                     (Publish u_msg tick "logs" "k" [] None 5%Z "text/plain" "/"))
                  (PurgeQueue "alpha"))).
  - apply (reachable_run_all empty_db
             (fanout_calls
              ++ [Publish u_msg tick "logs" "k" [] None 5%Z "text/plain" "/"]));
      [apply reach_init | reflexivity].
  - left. reflexivity.
Defined.

(** ** Delivery state of a message *)

Section Delivery.

Context {py : PyBuiltins}.

(** The row at a place after the loop of [consume]: marked acked when its id
    is among the fetched rows, as it was otherwise. *)
Lemma ack_rows_nth now rows :
  forall k t i m,
    nth_error t i = Some m ->
    exists m',
      nth_error (ack_rows now k rows t) i = Some m'
      /\ if existsb (fun row => m_id m =? m_id row) rows
         then exists ts, m' = set_acked_at ts m
         else m' = m.
Proof.
  induction rows as [|row rows IH]; intros k t i m Hi; cbn [ack_rows existsb].
  - now exists m.
  - pose proof (update_where_nth (fun x => m_id x =? m_id row)
                  (set_acked_at (now k)) t i m Hi) as H1.
    cbn beta in H1.
    destruct (IH (S k) _ i _ H1) as [m' [Hm' Hcase]].
    exists m'. split; [exact Hm'|].
    destruct (m_id m =? m_id row) eqn:E; cbn [orb].
    + cbn in Hcase. destruct (existsb _ rows).
      * destruct Hcase as [ts ->]. now exists ts.
      * exists (now k). exact Hcase.
    + exact Hcase.
Qed.

Lemma ack_rows_length now rows k t : length (ack_rows now k rows t) = length t.
Proof.
  rewrite <- (length_map m_id (ack_rows now k rows t)), ack_rows_ids.
  apply length_map.
Qed.

Lemma ack_rows_In now rows k t m' :
  In m' (ack_rows now k rows t) ->
  exists m,
    In m t
    /\ if existsb (fun row => m_id m =? m_id row) rows
       then exists ts, m' = set_acked_at ts m
       else m' = m.
Proof.
  intros Hin. apply In_nth_error in Hin as [i Hi].
  destruct (nth_error t i) as [m|] eqn:Hm.
  - destruct (ack_rows_nth now rows k t i m Hm) as [x [Hx Hcase]].
    rewrite Hi in Hx. injection Hx as <-.
    exists m. split; [now apply nth_error_In in Hm | exact Hcase].
  - apply nth_error_None in Hm.
    assert (i < length (ack_rows now k rows t))%nat as Hlt
        by (apply nth_error_Some; congruence).
    rewrite ack_rows_length in Hlt. lia.
Qed.

Lemma existsb_id_In (id : string) (rows : list message_row) :
  existsb (fun row => id =? m_id row) rows = true <-> In id (map m_id rows).
Proof.
  rewrite existsb_exists, in_map_iff. split.
  - intros [r [Hin E]]. apply String.eqb_eq in E. now exists r.
  - intros [r [E Hin]]. exists r. split; [exact Hin|]. now apply String.eqb_eq.
Qed.

(** A row that is not ready is never delivered, whatever calls come first,
    unless a call publishes a new message under its id. *)
Lemma retired_never_delivered db message_id cs now queue_name n ack ms :
  Forall (fun m => m_id m = message_id -> is_ready m = false) (messages db) ->
  Forall (fun c => call_uuid c <> Some message_id) cs ->
  snd (consume (run_all db cs) now queue_name n ack) = Returned ms ->
  forall x, In x ms -> Message.id x <> message_id.
Proof.
  intros H0 Hcs Hms.
  assert (Forall (fun m => m_id m = message_id -> is_ready m = false)
            (messages (run_all db cs))) as Hretired.
  { clear Hms. revert db H0.
    induction Hcs as [|c cs Hc _ IH]; intros d Hd; [exact Hd|].
    cbn. apply IH. now apply run_keeps_retired. }
  intros x Hx Hid.
  destruct (consume_returns_ready_rows _ _ _ _ _ _ _ Hms Hx)
    as [row [Hrow [Hready Hx']]].
  apply Message_of_row_fields in Hx' as [Hidx _]. rewrite Hidx in Hid.
  rewrite Forall_forall in Hretired.
  rewrite (Hretired row Hrow Hid) in Hready. discriminate.
Qed.

(** X7: no second delivery after an acknowledging [consume]: whatever calls
    follow (none of them publishing under the id of a delivered message),
    whatever a later [consume] returns, on any queue, holds no message that
    the earlier [consume] with ack returned. *)
Theorem acked_never_redelivered (db : DB) (now : Clock) (queue_name : string)
    (n : Z) (ms : list (Message.t PyDict)) (cs : list call) (now' : Clock)
    (queue_name' : string) (n' : Z) (ack' : bool)
    (ms' : list (Message.t PyDict)) :
  snd (consume db now queue_name n true) = Returned ms ->
  Forall (fun c => forall x, In x ms -> call_uuid c <> Some (Message.id x)) cs ->
  snd (consume (run_all (fst (consume db now queue_name n true)) cs)
         now' queue_name' n' ack') = Returned ms' ->
  forall x x', In x ms -> In x' ms' -> Message.id x' <> Message.id x.
Proof.
  intros Hms Hcs Hms' x x' Hx Hx'.
  apply (retired_never_delivered (fst (consume db now queue_name n true))
           (Message.id x) cs now' queue_name' n' ack' ms'); auto.
  - destruct (consume_returned _ _ _ _ _ _ Hms)
      as [[_ [-> _]]|[q [_ [_ [Hc ->]]]]]; [destruct Hx|].
    cbn [messages with_messages].
    destruct (collect_In _ _ _ _ Hc Hx) as [r [Hr Hrx]].
    apply Message_of_row_fields in Hrx as [Hidx _].
    apply Forall_forall. intros m' Hm' Hid.
    destruct (ack_rows_In _ _ _ _ _ Hm') as [m [_ Hcase]].
    assert (existsb (fun row => m_id m =? m_id row)
              (select_ready db (q_id q) n) = true) as Hex.
    { apply existsb_exists. exists r. split; [exact Hr|].
      apply String.eqb_eq. rewrite <- Hidx, <- Hid.
      destruct (existsb _ (select_ready db (q_id q) n)).
      - now destruct Hcase as [ts ->].
      - now subst m'. }
    rewrite Hex in Hcase. destruct Hcase as [ts ->]. reflexivity.
  - eapply Forall_impl; [|exact Hcs]. intros c Hc. now apply Hc.
Qed.

(** X8: an acknowledging [consume] that returns has written acked_at on the
    rows whose id it returns and nothing else: every other message row and
    every other column are as before; one that raises has written nothing,
    and on a stored queue a count outside 64 bits raises OverflowError, while
    a count within 64 bits returns when the headers of the ready rows
    evaluate; in all cases the number of rows and the three other tables are
    as before. *)
Theorem consume_ack_frame (db : DB) (now : Clock) (queue_name : string) (n : Z) :
  (forall ms,
      snd (consume db now queue_name n true) = Returned ms ->
      forall i m,
        nth_error (messages db) i = Some m ->
        exists m',
          nth_error (messages (fst (consume db now queue_name n true))) i
          = Some m'
          /\ ((In (m_id m) (map Message.id ms)
               /\ exists ts, m' = set_acked_at ts m)
              \/ (~ In (m_id m) (map Message.id ms) /\ m' = m)))
  /\ (forall e,
         snd (consume db now queue_name n true) = Raised e ->
         fst (consume db now queue_name n true) = db)
  /\ (forall q,
         select_queue_by_name db queue_name = Some q ->
         fits_int64 n = false ->
         consume db now queue_name n true = (db, Raised OverflowError))
  /\ (forall q,
         select_queue_by_name db queue_name = Some q ->
         fits_int64 n = true ->
         Forall (fun r => exists x, Message_of_row r = Returned x)
           (filter (fun m => in_queue (q_id q) m && is_ready m) (messages db)) ->
         exists ms, snd (consume db now queue_name n true) = Returned ms)
  /\ length (messages (fst (consume db now queue_name n true)))
     = length (messages db)
  /\ exchanges (fst (consume db now queue_name n true)) = exchanges db
  /\ queues (fst (consume db now queue_name n true)) = queues db
  /\ bindings (fst (consume db now queue_name n true)) = bindings db.
Proof.
  split; [|split; [intros e; apply consume_raised|]].
  2:{ split; [intros q; apply consume_overflow|].
      split; [intros q; apply consume_returns|].
      destruct (consume_fst db now queue_name n true) as [->|[q [_ ->]]].
      - now repeat split.
      - cbn. split; [apply ack_rows_length | now repeat split]. }
  - intros ms Hms i m Hi.
    destruct (consume_returned _ _ _ _ _ _ Hms)
      as [[_ [-> ->]]|[q [_ [_ [Hc ->]]]]].
    + exists m. split; [exact Hi|]. right. now split.
    + cbn [messages with_messages].
      destruct (ack_rows_nth now (select_ready db (q_id q) n) 0 _ i m Hi)
        as [m' [Hm' Hcase]].
      exists m'. split; [exact Hm'|].
      rewrite (collect_map Message_of_row Message.id m_id _ _
                 (fun a b Hab => proj1 (Message_of_row_fields a b Hab)) Hc).
      destruct (existsb _ (select_ready db (q_id q) n)) eqn:Hex.
      * left. split; [now apply existsb_id_In | exact Hcase].
      * right. split; [|exact Hcase].
        intros Hin. apply existsb_id_In in Hin. congruence.
Qed.

(** X9: what [consume] returns are messages stored under the queue of that
    name with the smallest vhost, with acked_at and nacked_at unset, at
    most n of them when n is not negative; and it returns for a stored queue
    only when the count fits 64 bits. *)
Theorem consume_only_ready_of_queue (db : DB) (now : Clock) (queue_name : string)
    (n : Z) (ack : bool) (q : queue_row) (ms : list (Message.t PyDict)) :
  select_queue_by_name db queue_name = Some q ->
  snd (consume db now queue_name n ack) = Returned ms ->
  (forall x, In x ms ->
     Message.queue_id x = q_id q
     /\ Message.acked_at x = None
     /\ Message.nacked_at x = None)
  /\ ((0 <= n)%Z -> (Z.of_nat (length ms) <= n)%Z)
  /\ fits_int64 n = true
  /\ (forall q', In q' (queues db) -> q_name q' = queue_name ->
                 String.ltb (q_vhost q') (q_vhost q) = false).
Proof.
  intros Hq Hms.
  destruct (consume_returned _ _ _ _ _ _ Hms)
    as [[Hnone _]|[q0 [Hq0 [Hn [Hc _]]]]]; [congruence|].
  assert (q0 = q) as -> by congruence.
  split; [|split; [|split; [exact Hn | now apply select_queue_by_name_least]]].
  - intros x Hx. destruct (collect_In _ _ _ _ Hc Hx) as [r [Hr Hrx]].
    apply Message_of_row_fields in Hrx as (_ & -> & _ & _ & _ & -> & -> & _).
    unfold select_ready in Hr.
    destruct (sql_limit_prefix n
                (filter (fun m => in_queue (q_id q) m && is_ready m) (messages db)))
      as [rest Hrest].
    assert (In r (filter (fun m => in_queue (q_id q) m && is_ready m)
                    (messages db))) as Hin
        by (rewrite Hrest; apply in_or_app; now left).
    apply filter_In in Hin as [_ Hb]. apply andb_prop in Hb as [Hqid Hready].
    apply String.eqb_eq in Hqid. unfold is_ready in Hready.
    apply andb_prop in Hready as [Ha Hna].
    destruct (m_acked_at r); [discriminate|].
    destruct (m_nacked_at r); [discriminate|]. now repeat split.
  - intros Hpos.
    rewrite <- (length_map Message.id),
      (collect_map Message_of_row Message.id m_id _ _
         (fun a b Hab => proj1 (Message_of_row_fields a b Hab)) Hc), length_map.
    unfold select_ready. rewrite sql_limit_length.
    destruct (n <? 0)%Z eqn:E; [apply Z.ltb_lt in E; lia|]. lia.
Qed.

End Delivery.

Lemma acked_never_redelivered_witness :
  exists ms ms',
    snd (consume priorities_db tick "work" 2%Z true) = Returned ms
    /\ map Message.id ms = ["m1"; "m2"]
    /\ snd (consume
              (run_all (fst (consume priorities_db tick "work" 2%Z true))
                 [Nack tick "m3" true; PurgeQueue "other"])
              tick "work" 5%Z false) = Returned ms'
    /\ forall x x', In x ms -> In x' ms' -> Message.id x' <> Message.id x.
Proof.
  eexists _, _. split; [reflexivity|]. split; [reflexivity|].
  split; [reflexivity|].
  apply (acked_never_redelivered priorities_db tick "work" 2%Z _
           [Nack tick "m3" true; PurgeQueue "other"] tick "work" 5%Z false).
  - reflexivity.
  - repeat constructor; discriminate.
  - reflexivity.
Defined.

Lemma consume_ack_frame_witness :
  exists m',
    nth_error (messages (fst (consume priorities_db tick "work" 1%Z true))) 2
    = Some m'
    /\ m' = stored "m3" u_work 3.
Proof.
  destruct (consume_ack_frame priorities_db tick "work" 1%Z) as [Hrows _].
  destruct (Hrows _ eq_refl 2%nat (stored "m3" u_work 3) eq_refl)
    as [m' [Hm' Hcase]].
  exists m'. split; [exact Hm'|].
  destruct Hcase as [[Hin _]|[_ ->]]; [|reflexivity].
  exfalso. cbn in Hin. destruct Hin as [E|[]]. discriminate E.
Defined.

Lemma consume_only_ready_of_queue_witness :
  exists ms,
    snd (consume priorities_db tick "work" 2%Z false) = Returned ms
    /\ (forall x, In x ms ->
          Message.queue_id x = u_work
          /\ Message.acked_at x = None
          /\ Message.nacked_at x = None)
    /\ ((0 <= 2)%Z -> (Z.of_nat (length ms) <= 2)%Z)
    /\ fits_int64 2 = true
    /\ (forall q', In q' (queues priorities_db) -> q_name q' = "work" ->
                   String.ltb (q_vhost q') "/" = false).
Proof.
  eexists. split; [reflexivity|].
  apply (consume_only_ready_of_queue priorities_db tick "work" 2%Z false
           work_queue); reflexivity.
Defined.

(** ** Attempts *)

Section Attempts.

Context {py : PyBuiltins}.

Lemma dead_letter_queue_messages db u now queue_name dlq_name :
  messages (fst (dead_letter_queue db u now queue_name dlq_name)) = messages db.
Proof.
  unfold dead_letter_queue.
  pose proof (declare_queue_messages db u now dlq_name "/" true false false None)
    as Hm.
  destruct (declare_queue _ _ _ _ _ _ _ _ _) as [db1 [q|ex]]; cbn in Hm |- *;
    [|exact Hm].
  now destruct (select_queue_by_name db1 queue_name).
Qed.

(** X10: k nacks of a message add k to its attempt counter, as long as the
    counter is a 64-bit integer and the sum does not pass 2^63, where SQLite
    leaves the integers: no threshold at 3 or elsewhere stops the counting,
    the message stays under its queue with its routing key and its acked_at,
    and is never removed. *)
Theorem nack_repeated (k : nat) :
  forall (db : DB) (now : Clock) (message_id : string) (requeue : bool)
         (i : nat) (m : message_row),
    nth_error (messages db) i = Some m ->
    m_id m = message_id ->
    (- 2 ^ 63 <= m_attempts m)%Z ->
    (m_attempts m + Z.of_nat k <= 2 ^ 63)%Z ->
    exists m',
      nth_error
        (messages (run_all db (repeat (Nack now message_id requeue) k))) i
      = Some m'
      /\ m_id m' = message_id
      /\ m_queue_id m' = m_queue_id m
      /\ m_routing_key m' = m_routing_key m
      /\ m_acked_at m' = m_acked_at m
      /\ m_attempts m' = (m_attempts m + Z.of_nat k)%Z.
Proof.
  induction k as [|k IH]; intros db now message_id requeue i m Hi Hid Hlo Hsum.
  - exists m. cbn. rewrite Z.add_0_r. now repeat split.
  - cbn [repeat run_all fold_left]. fold (run_all (run db (Nack now message_id requeue))
                                            (repeat (Nack now message_id requeue) k)).
    pose proof (nack_nth db now message_id requeue i m Hi) as H1.
    rewrite Hid, String.eqb_refl in H1.
    destruct (IH (run db (Nack now message_id requeue)) now message_id requeue i
                (set_nacked (now 0%nat) m) H1 Hid)
      as [m' (Hm' & H2 & H3 & H4 & H5 & H6)].
    + cbn [m_attempts set_nacked]. lia.
    + cbn [m_attempts set_nacked]. lia.
    + exists m'. split; [exact Hm'|]. cbn in H3, H4, H5, H6.
      repeat split; auto. rewrite H6. lia.
Qed.

(** X11: through every call a stored message keeps its id and its queue and
    its attempt counter never goes down: each message row after a call is
    either a row of before with the same id and queue_id and the same
    attempts or one more, or the row the call published, with 0 attempts and
    no queue. *)
Theorem attempts_never_decrease (db : DB) (c : call) (m' : message_row) :
  In m' (messages (run db c)) ->
  (exists m,
      In m (messages db)
      /\ m_id m = m_id m'
      /\ m_queue_id m = m_queue_id m'
      /\ (m_attempts m <= m_attempts m' <= m_attempts m + 1)%Z)
  \/ (m_attempts m' = 0%Z /\ m_queue_id m' = EmptyString
      /\ call_uuid c = Some (m_id m')).
Proof.
  assert (forall m, In m (messages db) ->
            exists m0, In m0 (messages db) /\ m_id m0 = m_id m
                       /\ m_queue_id m0 = m_queue_id m
                       /\ (m_attempts m0 <= m_attempts m <= m_attempts m0 + 1)%Z)
    as Hold.
  { intros m Hm. exists m. repeat split; auto; lia. }
  destruct c; cbn [run].
  - rewrite declare_queue_messages. left. now apply Hold.
  - unfold declare_exchange. cbn. destruct (existsb _ _); left; now apply Hold.
  - unfold bind_queue. destruct (select_queue _ _ _); [|left; now apply Hold].
    destruct (select_exchange _ _ _); [|left; now apply Hold].
    cbn. destruct (existsb _ _); left; now apply Hold.
  - destruct (publish_fst db uuid4 now exchange routing_key body headers priority
                content_type vhost) as [->|[_ ->]]; [left; now apply Hold|]. cbn.
    intros Hin. apply in_app_or in Hin as [Hin|[<-|[]]]; [left; now apply Hold|].
    right. now cbn.
  - destruct (consume_fst db now queue_name n ack) as [->|[q [_ ->]]];
      [left; now apply Hold|]. cbn.
    intros Hin. left. destruct (ack_rows_In _ _ _ _ _ Hin) as [m [Hm Hcase]].
    exists m. split; [exact Hm|].
    destruct (existsb _ _); [destruct Hcase as [ts ->] | subst m'];
      cbn; repeat split; auto; lia.
  - unfold nack. cbn. unfold update_where. intros Hin.
    apply in_map_iff in Hin as [m [<- Hm]]. left. exists m. split; [exact Hm|].
    destruct (m_id m =? message_id); cbn; repeat split; auto; lia.
  - unfold purge_queue. destruct (select_queue_by_name _ _); [|left; now apply Hold].
    cbn. unfold delete_where. intros Hin. apply filter_In in Hin as [Hin _].
    left. now apply Hold.
  - rewrite dead_letter_queue_messages. left. now apply Hold.
Qed.


End Attempts.

Lemma nack_repeated_witness :
  exists m',
    nth_error
      (messages (run_all one_message_db (repeat (Nack tick "m1" true) 5))) 0
    = Some m'
    /\ m_id m' = "m1"
    /\ m_queue_id m' = u_work
    /\ m_routing_key m' = "job.run"
    /\ m_acked_at m' = None
    /\ m_attempts m' = 5%Z.
Proof.
  apply (nack_repeated 5 one_message_db tick "m1" true 0%nat
           (stored "m1" u_work 0));
    [reflexivity | reflexivity | vm_compute; discriminate
     | vm_compute; discriminate].
Defined.

Lemma attempts_never_decrease_witness :
  (exists m,
      In m (messages one_message_db)
      /\ m_id m = "m1"
      /\ m_queue_id m = u_work
      /\ (m_attempts m <= 1 <= m_attempts m + 1)%Z)
  \/ (1%Z = 0%Z /\ u_work = EmptyString
      /\ call_uuid (Nack tick "m1" false) = Some "m1").
Proof.
  apply (attempts_never_decrease one_message_db (Nack tick "m1" false)
           (set_nacked 0%Z (stored "m1" u_work 0))).
  now left.
Defined.


Lemma nacked_never_redelivered_witness :
  exists ms,
    snd (consume
           (run_all (fst (nack priorities_db tick "m2" true))
              [DeadLetterQueue u_dead tick "work" "dead"; Nack tick "m1" false])
           tick "work" 3%Z true) = Returned ms
    /\ map Message.id ms = ["m3"]
    /\ forall x, In x ms -> Message.id x <> "m2".
Proof.
  eexists. split; [reflexivity|]. split; [reflexivity|].
  apply (nacked_never_redelivered priorities_db tick "m2" true
           [DeadLetterQueue u_dead tick "work" "dead"; Nack tick "m1" false]
           tick "work" 3%Z true).
  - repeat constructor; discriminate.
  - reflexivity.
Defined.

(** ** Bindings, listings and repeated declarations *)

Lemma existsb_false_filter {R : Type} (p : R -> bool) (t : list R) :
  existsb p t = false -> filter p t = [].
Proof.
  induction t as [|r t IH]; cbn; [reflexivity|].
  destruct (p r); [discriminate | exact IH].
Qed.

Lemma existsb_true_filter {R : Type} (p : R -> bool) (t : list R) :
  existsb p t = true -> (1 <= length (filter p t))%nat.
Proof.
  induction t as [|r t IH]; cbn; [discriminate|].
  destruct (p r); cbn; [lia | exact IH].
Qed.

Section Topology.

Context {py : PyBuiltins}.

Lemma same_binding_refl (b : binding_row) : same_binding b b = true.
Proof. unfold same_binding. now rewrite !String.eqb_refl. Qed.

(** X14: [bind_queue] returns False and writes nothing unless the queue and
    the exchange are both stored under the given vhost; otherwise it returns
    True and a binding of the two ids and the routing key is stored, once:
    binding again leaves the database as it is, and a binding stored at most
    once before is stored exactly once after. *)
Theorem bind_queue_set_semantics (db : DB)
    (queue_name exchange_name routing_key vhost : string) :
  exists db' b,
    bind_queue db queue_name exchange_name routing_key vhost = (db', Returned b)
    /\ (b = false ->
        db' = db
        /\ (select_queue db queue_name vhost = None
            \/ select_exchange db exchange_name vhost = None))
    /\ (b = true ->
        exists q e,
          select_queue db queue_name vhost = Some q
          /\ select_exchange db exchange_name vhost = Some e
          /\ (exists x, In x (bindings db')
                        /\ b_queue_id x = q_id q
                        /\ b_exchange_id x = ex_id e
                        /\ b_routing_key x = routing_key)
          /\ length (filter (same_binding
                               (mk_binding_row (q_id q) (ex_id e) routing_key vhost))
                       (bindings db'))
             = Nat.max 1
                 (length (filter (same_binding
                                    (mk_binding_row (q_id q) (ex_id e) routing_key
                                       vhost))
                            (bindings db))))
    /\ bind_queue db' queue_name exchange_name routing_key vhost
       = (db', Returned b)
    /\ queues db' = queues db
    /\ exchanges db' = exchanges db
    /\ messages db' = messages db.
Proof.
  unfold bind_queue.
  destruct (select_queue db queue_name vhost) as [q|] eqn:Hq.
  2:{ exists db, false. rewrite Hq. repeat split; auto; discriminate. }
  destruct (select_exchange db exchange_name vhost) as [e|] eqn:He.
  2:{ exists db, false. rewrite Hq, He. repeat split; auto; discriminate. }
  set (row := mk_binding_row (q_id q) (ex_id e) routing_key vhost).
  destruct (existsb (same_binding row) (bindings db)) eqn:Hex.
  - exists db, true. rewrite Hq, He. fold row. rewrite Hex.
    split; [reflexivity|]. split; [discriminate|]. split; [|auto].
    intros _. exists q, e. split; [reflexivity|]. split; [reflexivity|]. split.
    + apply existsb_exists in Hex as [x [Hin Hx]]. exists x.
      unfold same_binding in Hx. cbn in Hx.
      apply andb_prop in Hx as [Hx Hk]. apply andb_prop in Hx as [Hqi Hei].
      apply String.eqb_eq in Hqi, Hei, Hk. now repeat split.
    + pose proof (existsb_true_filter _ _ Hex) as Hone. unfold row in Hone.
      symmetry. now apply Nat.max_r.
  - exists (with_bindings db (bindings db ++ [row])), true.
    unfold select_queue, select_exchange in *. cbn [queues exchanges with_bindings].
    rewrite Hq, He. fold row. cbn [bindings with_bindings].
    rewrite existsb_app, Hex. cbn [existsb]. rewrite same_binding_refl. cbn [orb].
    split; [reflexivity|]. split; [discriminate|]. split; [|auto].
    intros _. exists q, e. split; [reflexivity|]. split; [reflexivity|]. split.
    + exists row. split; [apply in_or_app; right; now left | now repeat split].
    + pose proof (existsb_false_filter _ _ Hex) as Hnil. unfold row in *.
      rewrite filter_app, Hnil. cbn [filter app].
      now rewrite same_binding_refl.
Qed.


(** X16: a queue once stored keeps the flags and arguments of its first
    declaration: declaring it again with other flags or arguments raises
    nothing and changes nothing in the database, and returns a Queue with the
    stored id and the flags and arguments of the new call. *)
Theorem declare_queue_first_flags_win (db : DB) (u1 u2 : string)
    (now1 now2 : Clock) (name vhost : string)
    (durable exclusive auto_delete : bool) (arguments : option PyDict)
    (durable' exclusive' auto_delete' : bool) (arguments' : option PyDict) :
  select_queue db name vhost = None ->
  existsb (fun q => q_id q =? u1) (queues db) = false ->
  let db1 := fst (declare_queue db u1 now1 name vhost durable exclusive
                    auto_delete arguments) in
  exists q2,
    declare_queue db1 u2 now2 name vhost durable' exclusive' auto_delete'
      arguments' = (db1, Returned q2)
    /\ Queue.id q2 = u1
    /\ Queue.durable q2 = durable'
    /\ Queue.exclusive q2 = exclusive'
    /\ Queue.auto_delete q2 = auto_delete'
    /\ Queue.arguments q2 = or_empty arguments'
    /\ select_queue db1 name vhost
       = Some (mk_queue_row u1 name vhost durable exclusive auto_delete
                 (Some (py_str (or_empty arguments))) 0%Z 0%Z (now1 0%nat) None).
Proof.
  intros Hsel Hid db1.
  assert (db1
          = with_queues db
              (queues db ++
               [mk_queue_row u1 name vhost durable exclusive auto_delete
                  (Some (py_str (or_empty arguments))) 0%Z 0%Z (now1 0%nat) None]))
    as ->.
  { subst db1. unfold declare_queue. now rewrite Hsel, Hid. }
  assert (select_queue
            (with_queues db
               (queues db ++
                [mk_queue_row u1 name vhost durable exclusive auto_delete
                   (Some (py_str (or_empty arguments))) 0%Z 0%Z (now1 0%nat) None]))
            name vhost
          = Some (mk_queue_row u1 name vhost durable exclusive auto_delete
                    (Some (py_str (or_empty arguments))) 0%Z 0%Z (now1 0%nat) None))
    as Hfound.
  { unfold select_queue in *. cbn [queues with_queues].
    rewrite (find_app_none _ _ _ Hsel). cbn. now rewrite !String.eqb_refl. }
  unfold declare_queue. rewrite Hfound.
  eexists. split; [reflexivity|]. now cbn.
Qed.

(** X17: after an exchange has been declared under a uuid no stored
    exchange has, a publish to its name and vhost with a new message id and a
    priority within 64 bits returns that id, never the empty text, and stores
    the message with the exchange name and routing key of the call; with a
    priority outside 64 bits the publish raises OverflowError and stores
    nothing. *)
Theorem declare_then_publish (db : DB) (u_ex u_m : string) (now : Clock)
    (name type vhost : string) (durable auto_delete : bool)
    (routing_key : string) (body : list Byte.byte) (headers : option PyDict)
    (priority : Z) (content_type : string) :
  existsb (fun e => ex_id e =? u_ex) (exchanges db) = false ->
  existsb (fun m => m_id m =? u_m) (messages db) = false ->
  let db1 := fst (declare_exchange db u_ex name type vhost durable auto_delete) in
  (fits_int64 priority = true ->
   exists db2 row,
     publish db1 u_m now name routing_key body headers priority content_type vhost
     = (db2, Returned u_m)
     /\ messages db2 = messages db ++ [row]
     /\ m_id row = u_m
     /\ m_exchange row = name
     /\ m_routing_key row = routing_key
     /\ m_body row = body
     /\ m_priority row = priority)
  /\ (fits_int64 priority = false ->
      publish db1 u_m now name routing_key body headers priority content_type vhost
      = (db1, Raised OverflowError)).
Proof.
  intros Hex Hm db1.
  assert (messages db1 = messages db) as Hmsg.
  { subst db1. unfold declare_exchange. cbn [fst].
    now destruct (existsb (fun e => _ || _) (exchanges db)). }
  assert (exists e, select_exchange db1 name vhost = Some e) as [e He].
  { destruct (select_exchange db name vhost) as [e|] eqn:Hsel.
    - exists e. subst db1. unfold declare_exchange. cbn [fst].
      assert (existsb (fun r => (ex_id r =? u_ex)
                                || ((ex_name r =? name) && (ex_vhost r =? vhost)))
                (exchanges db) = true) as ->; [|exact Hsel].
      unfold select_exchange in Hsel. apply find_some in Hsel as [Hin Hb].
      apply existsb_exists. exists e. split; [exact Hin|].
      rewrite Hb. apply orb_true_r.
    - eexists. subst db1. now apply declare_exchange_new. }
  split; intros Hfit; unfold publish; rewrite He, Hfit; cbn [negb]; [|reflexivity].
  rewrite Hmsg, Hm.
  eexists _, _. split; [reflexivity|]. now cbn.
Qed.

End Topology.

Section DeadLetterAgain.

Context {py : PyBuiltins}.

Lemma declare_queue_selects db u now name vhost d e a args db1 q :
  declare_queue db u now name vhost d e a args = (db1, Returned q) ->
  exists r, select_queue db1 name vhost = Some r.
Proof.
  unfold declare_queue. destruct (select_queue db name vhost) as [r|] eqn:Hsel.
  - intros [= <- _]. eauto.
  - destruct (existsb _ (queues db)); [discriminate|]. intros [= <- _].
    unfold select_queue in *. cbn [queues with_queues].
    rewrite (find_app_none _ _ _ Hsel). cbn. rewrite !String.eqb_refl. cbn. eauto.
Qed.

(** X18: configuring the same dead-letter queue for the same queue a second
    time returns what the first call returned and leaves the database as the
    first call left it, whatever uuid and clock the second call draws. *)
Theorem dead_letter_queue_idempotent (db db1 : DB) (u1 u2 : string)
    (now1 now2 : Clock) (queue_name dlq_name : string) (r : bool) :
  dead_letter_queue db u1 now1 queue_name dlq_name = (db1, Returned r) ->
  dead_letter_queue db1 u2 now2 queue_name dlq_name = (db1, Returned r).
Proof.
  unfold dead_letter_queue at 1.
  destruct (declare_queue db u1 now1 dlq_name "/" true false false None)
    as [d0 [q|ex]] eqn:Hd; [|discriminate].
  destruct (declare_queue_selects _ _ _ _ _ _ _ _ _ _ _ Hd) as [r0 Hr0].
  destruct (select_queue_by_name d0 queue_name) as [s|] eqn:Hs.
  - intros [= <- <-]. unfold dead_letter_queue, declare_queue.
    assert (select_queue
              (with_queues d0
                 (update_where (fun x => q_id x =? q_id s)
                    (set_arguments (dead_letter_arguments dlq_name)) (queues d0)))
              dlq_name "/"
            = Some (if q_id r0 =? q_id s
                    then set_arguments (dead_letter_arguments dlq_name) r0
                    else r0)) as ->.
    { unfold select_queue in *. cbn [queues with_queues].
      rewrite find_update_where by reflexivity. now rewrite Hr0. }
    assert (select_queue_by_name
              (with_queues d0
                 (update_where (fun x => q_id x =? q_id s)
                    (set_arguments (dead_letter_arguments dlq_name)) (queues d0)))
              queue_name
            = Some (set_arguments (dead_letter_arguments dlq_name) s)) as ->.
    { rewrite select_queue_by_name_update by reflexivity. rewrite Hs. cbn.
      now rewrite String.eqb_refl. }
    cbn [q_id set_arguments queues with_queues].
    rewrite update_where_idem by reflexivity. reflexivity.
  - intros [= <- <-]. unfold dead_letter_queue, declare_queue.
    now rewrite Hr0, Hs.
Qed.

End DeadLetterAgain.

Lemma bind_queue_set_semantics_witness :
  exists db' b,
    bind_queue fanout_db "alpha" "logs" "any" "/" = (db', Returned b)
    /\ b = true
    /\ db' = fanout_db
    /\ bind_queue db' "alpha" "logs" "any" "/" = (db', Returned b).
Proof.
  destruct (bind_queue_set_semantics fanout_db "alpha" "logs" "any" "/")
    as [db' [b (Hb & _ & _ & Hagain & _)]].
  exists db', b. split; [exact Hb|].
  assert (bind_queue fanout_db "alpha" "logs" "any" "/" = (fanout_db, Returned true))
    as Heval by reflexivity.
  rewrite Heval in Hb. injection Hb as <- <-. now repeat split.
Defined.


Lemma declare_queue_first_flags_win_witness :
  exists q2,
    declare_queue
      (fst (declare_queue empty_db u_work tick "work" "/" true false false None))
      u_dead tick "work" "/" false true true None
    = (fst (declare_queue empty_db u_work tick "work" "/" true false false None),
       Returned q2)
    /\ Queue.id q2 = u_work
    /\ Queue.durable q2 = false
    /\ Queue.exclusive q2 = true
    /\ Queue.auto_delete q2 = true
    /\ Queue.arguments q2 = or_empty None
    /\ select_queue
         (fst (declare_queue empty_db u_work tick "work" "/" true false false None))
         "work" "/"
       = Some (mk_queue_row u_work "work" "/" true false false
                 (Some (py_str (or_empty None))) 0%Z 0%Z 0%Z None).
Proof.
  apply (declare_queue_first_flags_win empty_db u_work u_dead tick tick "work" "/"
           true false false None false true true None); reflexivity.
Defined.

Lemma declare_then_publish_witness :
  exists db2 row,
    publish (fst (declare_exchange fanout_db u_other "jobs" "direct" "/" true false))
      u_msg tick "jobs" "job.run" [] None 0%Z "text/plain" "/"
    = (db2, Returned u_msg)
    /\ messages db2 = messages fanout_db ++ [row]
    /\ m_id row = u_msg
    /\ m_exchange row = "jobs"
    /\ m_routing_key row = "job.run"
    /\ m_body row = []
    /\ m_priority row = 0%Z.
Proof.
  apply (declare_then_publish fanout_db u_other u_msg tick "jobs" "direct" "/"
           true false "job.run" [] None 0%Z "text/plain"); reflexivity.
Defined.

Lemma dead_letter_queue_idempotent_witness :
  dead_letter_queue dead_letter_db u_other tick "work" "dead"
  = (dead_letter_db, Returned true).
Proof.
  apply (dead_letter_queue_idempotent one_message_db dead_letter_db u_dead u_other
           tick tick "work" "dead" true).
  reflexivity.
Defined.

(** ** The command line *)

Section CommandLine.

Context {py : PyBuiltins} {cli : CliBuiltins}.

(** X19: [consume] on the command line reads the count from the fifth
    argument as soon as --n occurs anywhere among the arguments: with --n
    and fewer than five arguments the script ends in an IndexError, having
    printed and consumed nothing. *)
Theorem cli_consume_flag_needs_five (file : option DB) (prog queue_name : string)
    (rest : list string) (uuid4 : string) (now : Clock) :
  In "--n" (prog :: "consume" :: queue_name :: rest) ->
  (length rest < 2)%nat ->
  main file (prog :: "consume" :: queue_name :: rest) uuid4 now
  = (init_db file, mk_cli_result [] (Uncaught IndexError)).
Proof.
  intros Hin Hlen. unfold main.
  assert (consume_count (prog :: "consume" :: queue_name :: rest) = inl IndexError)
    as Hcount.
  { unfold consume_count.
    assert (existsb (String.eqb "--n") (prog :: "consume" :: queue_name :: rest)
            = true) as ->.
    { apply existsb_exists. exists "--n". split; [exact Hin | reflexivity]. }
    destruct rest as [|a [|b rest]]; cbn in Hlen |- *; [reflexivity..|lia]. }
  change ("consume" =? "queues") with false.
  change ("consume" =? "publish") with false.
  change ("consume" =? "consume") with true.
  cbn [andb]. cbn [length Nat.leb]. now rewrite Hcount.
Qed.

(** X20: [publish] on the command line to an exchange that is not stored
    prints the line Published: with no id and ends normally, and nothing is
    stored. *)
Theorem cli_publish_unknown_exchange (file : option DB)
    (prog exchange routing_key body : string) (rest : list string)
    (uuid4 : string) (now : Clock) :
  select_exchange (init_db file) exchange "/" = None ->
  main file (prog :: "publish" :: exchange :: routing_key :: body :: rest)
    uuid4 now
  = (init_db file, mk_cli_result ["Published: "] Finished).
Proof.
  intros Hex. unfold main.
  change ("publish" =? "queues") with false.
  change ("publish" =? "publish") with true.
  cbn [andb length Nat.leb nth].
  now rewrite publish_unknown_exchange.
Qed.

(** X21: [consume] on the command line acknowledges before it prints: when
    the body of the first fetched message does not decode, the script ends
    in a UnicodeDecodeError with nothing printed, and the database is the one
    the acknowledging [consume] left. *)
Theorem cli_consume_acks_before_printing (file : option DB)
    (prog queue_name : string) (rest : list string) (uuid4 : string)
    (now : Clock) (m : Message.t PyDict) (ms : list (Message.t PyDict)) :
  existsb (String.eqb "--n") (prog :: "consume" :: queue_name :: rest) = false ->
  snd (consume (init_db file) now queue_name 1%Z true) = Returned (m :: ms) ->
  py_decode (Message.body m) = None ->
  main file (prog :: "consume" :: queue_name :: rest) uuid4 now
  = (fst (consume (init_db file) now queue_name 1%Z true),
     mk_cli_result [] (Uncaught UnicodeDecodeError)).
Proof.
  intros Hflag Hms Hdec. unfold main.
  change ("consume" =? "queues") with false.
  change ("consume" =? "publish") with false.
  change ("consume" =? "consume") with true.
  cbn [andb length Nat.leb nth]. unfold consume_count. rewrite Hflag.
  destruct (consume (init_db file) now queue_name 1%Z true) as [db' o].
  cbn in Hms |- *. subst o. cbn [print_messages]. now rewrite Hdec.
Qed.

Lemma queue_lines_zero (rows : list queue_row)
    (listed : list (Queue.t PyDict)) :
  collect (map Queue_of_row rows) = Returned listed ->
  Forall (fun q => q_message_count q = 0%Z) rows ->
  map queue_line listed
  = map (fun q => q_name q ++ " (" ++ q_vhost q ++ "): 0 messages")%string rows.
Proof.
  intros H. apply collect_Forall2 in H.
  induction H as [|q x rows listed Hqx _ IH]; intros Hz; [reflexivity|].
  inversion Hz as [|? ? Hq Hrest]; subst. cbn [map]. rewrite (IH Hrest). f_equal.
  unfold Queue_of_row in Hqx.
  destruct (eval_or_empty (q_arguments q)) as [v|e]; [|discriminate].
  injection Hqx as <-. unfold queue_line.
  cbn [Queue.name Queue.vhost Queue.message_count]. now rewrite Hq.
Qed.

(** X22: on a database the broker has produced itself, the command queues
    prints every queue with 0 messages, whatever was published, when the
    listing evaluates; when [list_queues] raises, as it does when [eval]
    rejects a stored arguments text, the script ends in that exception with
    nothing printed.  The database is left as it is either way. *)
Theorem cli_queues_reports_zero (db : DB) (prog : string) (rest : list string)
    (uuid4 : string) (now : Clock) :
  reachable db ->
  (forall listed,
      list_queues db None = Returned listed ->
      main (Some db) (prog :: "queues" :: rest) uuid4 now
      = (db,
         mk_cli_result
           (map (fun q => q_name q ++ " (" ++ q_vhost q ++ "): 0 messages")%string
              (queues db))
           Finished))
  /\ (forall e,
        list_queues db None = Raised e ->
        main (Some db) (prog :: "queues" :: rest) uuid4 now
        = (db, mk_cli_result [] (Uncaught (MethodError e)))).
Proof.
  intros Hr. unfold main.
  change ("queues" =? "queues") with true. cbn [init_db].
  split.
  - intros listed Hl. rewrite Hl. do 2 f_equal.
    apply queue_lines_zero; [exact Hl|].
    apply Forall_forall. intros q Hq.
    now destruct (reachable_queues_empty db q Hr Hq).
  - intros e He. now rewrite He.
Qed.

End CommandLine.

Lemma cli_consume_flag_needs_five_witness :
  main (Some priorities_db) ["message_queue.py"; "consume"; "work"; "--n"] u_msg tick
  = (priorities_db, mk_cli_result [] (Uncaught IndexError)).
Proof.
  apply (cli_consume_flag_needs_five (Some priorities_db) "message_queue.py" "work"
           ["--n"] u_msg tick).
  - cbn. auto.
  - cbn. lia.
Defined.

Lemma cli_publish_unknown_exchange_witness :
  main (Some fanout_db) ["message_queue.py"; "publish"; "missing"; "k"; "hello"]
    u_msg tick
  = (fanout_db, mk_cli_result ["Published: "] Finished).
Proof.
  apply (cli_publish_unknown_exchange (Some fanout_db) "message_queue.py" "missing"
           "k" "hello" [] u_msg tick).
  reflexivity.
Defined.

Lemma cli_consume_acks_before_printing_witness :
  main (Some binary_db) ["message_queue.py"; "consume"; "work"] u_msg tick
  = (fst (consume binary_db tick "work" 1%Z true),
     mk_cli_result [] (Uncaught UnicodeDecodeError)).
Proof.
  apply (cli_consume_acks_before_printing (Some binary_db) "message_queue.py" "work"
           [] u_msg tick
           (Message.mk "m1" u_work "jobs" "job.run" [Byte.xff]
              ("{}" : @PyDict text_builtins) 0%Z 2%Z "text/plain" 0%Z None None
              0%Z)
           []); reflexivity.
Defined.

Lemma cli_queues_reports_zero_witness :
  main (Some fanout_db) ["message_queue.py"; "queues"] u_msg tick
  = (fanout_db,
     mk_cli_result ["alpha (/): 0 messages"; "beta (/): 0 messages"] Finished)
  /\ main (Some quoted_db) ["message_queue.py"; "queues"] u_msg tick
     = (quoted_db, mk_cli_result [] (Uncaught (MethodError EvalRaised))).
Proof.
  split.
  - apply (proj1 (cli_queues_reports_zero fanout_db "message_queue.py" [] u_msg tick
                    (reachable_run_all empty_db fanout_calls reach_init eq_refl))
             [Queue.mk u_alpha "alpha" "/" true false false
                ("{}" : @PyDict text_builtins) 0%Z 0%Z 0%Z None;
              Queue.mk u_beta "beta" "/" true false false
                ("{}" : @PyDict text_builtins) 0%Z 0%Z 0%Z None]).
    reflexivity.
  - apply (proj2 (cli_queues_reports_zero quoted_db "message_queue.py" [] u_msg tick
                    (reachable_run_all empty_db quoted_calls reach_init eq_refl))).
    reflexivity.
Defined.
